(** * conv_viewer: the trajectory renderer of tau-bench

    A shallow embedding of [src/conv_viewer.py].  The script loads a JSON
    file of conversation records, picks the record with a given
    [task_id] and [trial], and prints its turns as a labelled, wrapped,
    indented transcript.

    Python values decoded from JSON are modelled by the type [json];
    a Python [str] is a list of Unicode code points, so that [len],
    slicing and the one-character ellipsis behave as they do in Python.
    Statements that may raise are written in an error monad, and [print]
    appends its argument to the list of printed texts (one entry for each
    call; an entry holds several lines when the argument does). *)

From Stdlib Require Import ZArith NArith List String Ascii Lia DecimalString.
From stdpp Require Import base option list countable gmap.

Set Warnings "-register-all".
Local Open Scope Z_scope.

(** ** Python strings *)

(** A Python [str]: a sequence of code points. *)
Definition str := list N.

(** UTF-8 decoding of the bytes of a Rocq string literal, so that the
    literals below read as they do in the Python source. *)
Fixpoint utf8_decode (bs : list N) : str :=
  match bs with
  | [] => []
  | b :: rest =>
      if (b <? 128)%N then b :: utf8_decode rest
      else if (b <? 224)%N then
        match rest with
        | c1 :: rest1 => ((b - 192) * 64 + (c1 - 128))%N :: utf8_decode rest1
        | [] => [b]
        end
      else if (b <? 240)%N then
        match rest with
        | c1 :: c2 :: rest2 =>
            ((b - 224) * 4096 + (c1 - 128) * 64 + (c2 - 128))%N :: utf8_decode rest2
        | _ => [b]
        end
      else
        match rest with
        | c1 :: c2 :: c3 :: rest3 =>
            ((b - 240) * 262144 + (c1 - 128) * 4096 + (c2 - 128) * 64 + (c3 - 128))%N
              :: utf8_decode rest3
        | _ => [b]
        end
  end.

Definition u (s : string) : str :=
  utf8_decode (map N_of_ascii (list_ascii_of_string s)).

(** The text of a JSON document or of a quoted string, written with
    apostrophes where the text has double quotes: [jq "{'x':1}"] is the
    seven characters [{"x":1}]. *)
Definition jq (s : string) : str :=
  map (fun c => if (c =? 39)%N then 34%N else c) (u s).

Definition len (s : str) : Z := Z.of_nat (length s).

Definition str_eqb (a b : str) : bool := bool_decide (a = b).

(** [s[:n]] *)
Definition slice_to (s : str) (n : Z) : str :=
  if 0 <=? n then take (Z.to_nat n) s
  else take (length s - Z.to_nat (- n))%nat s.

(** [sep.join(parts)] *)
Fixpoint join (sep : str) (parts : list str) : str :=
  match parts with
  | [] => []
  | [p] => p
  | p :: rest => p ++ sep ++ join sep rest
  end.

(** [s * n] *)
Definition str_repeat (s : str) (n : Z) : str :=
  concat (replicate (Z.to_nat n) s).

(** [s.replace("\n", " ")] *)
Definition replace_newlines (s : str) : str :=
  map (fun c => if (c =? 10)%N then 32%N else c) s.

(** [s.startswith(p)] *)
Fixpoint startswith (s p : str) : bool :=
  match p, s with
  | [], _ => true
  | _ :: _, [] => false
  | a :: p', b :: s' => (a =? b)%N && startswith s' p'
  end.

(** [c.isspace()]: the code points Python treats as whitespace. *)
Definition isspace (c : N) : bool :=
  ((9 <=? c) && (c <=? 13) || (28 <=? c) && (c <=? 32) || (c =? 133) || (c =? 160)
   || (c =? 5760) || (8192 <=? c) && (c <=? 8202) || (c =? 8232) || (c =? 8233)
   || (c =? 8239) || (c =? 8287) || (c =? 12288))%N.

Fixpoint lstrip (s : str) : str :=
  match s with
  | c :: rest => if isspace c then lstrip rest else s
  | [] => []
  end.

Definition rstrip (s : str) : str := reverse (lstrip (reverse s)).

(** [s.strip()] *)
Definition strip (s : str) : str := rstrip (lstrip s).

(** The characters at which [str.splitlines] breaks a line
    (a carriage return followed by a line feed counts once). *)
Definition is_linebreak (c : N) : bool :=
  ((c =? 10) || (c =? 11) || (c =? 12) || (c =? 13) || (c =? 28) || (c =? 29)
   || (c =? 30) || (c =? 133) || (c =? 8232) || (c =? 8233))%N.

(** [cur] holds the characters of the line being read. *)
Fixpoint splitlines_from (keepends : bool) (cur s : str) : list str :=
  match s with
  | [] => match cur with [] => [] | _ => [cur] end
  | c :: rest =>
      if is_linebreak c then
        match rest with
        | d :: rest' =>
            if (c =? 13)%N && (d =? 10)%N
            then (cur ++ (if keepends then [c; d] else [])) :: splitlines_from keepends [] rest'
            else (cur ++ (if keepends then [c] else [])) :: splitlines_from keepends [] rest
        | [] => [cur ++ (if keepends then [c] else [])]
        end
      else splitlines_from keepends (cur ++ [c]) rest
  end.

(** [s.splitlines(keepends)] *)
Definition splitlines (keepends : bool) (s : str) : list str :=
  splitlines_from keepends [] s.

(** [textwrap.indent(text, prefix)]: the prefix goes in front of every
    line that is not made of whitespace only. *)
Definition indent (text prefix : str) : str :=
  concat (map (fun line => match strip line with [] => line | _ => prefix ++ line end)
              (splitlines true text)).

(** Decimal text of a Python [int]. *)
Definition str_of_int (z : Z) : str :=
  u (NilEmpty.string_of_int (Z.to_int z)).

(** ** ANSI colours *)

(** The keys of the [ANSI] table. *)
Inductive style :=
  sReset | sDim | sBold | sUser | sAssistant | sTool | sMeta | sError.

Definition ANSI (code : style) : str :=
  27%N :: match code with
          | sReset => u "[0m"
          | sDim => u "[2m"
          | sBold => u "[1m"
          | sUser => u "[92m"
          | sAssistant => u "[96m"
          | sTool => u "[95m"
          | sMeta => u "[90m"
          | sError => u "[91m"
          end.

Definition _color (text : str) (code : style) (enable : bool) : str :=
  if enable then ANSI code ++ text ++ ANSI sReset else text.

(** ** Values decoded from JSON *)

(** What [json.load] returns: [None], [bool], [int], [float], [str],
    [list] and [dict] (keys in insertion order).  The type [F] stands for
    Python's floats, one element for each float value; they are not
    computed with here, what the script needs of them is in [PyLib]. *)
Inductive json (F : Type) : Type :=
  | JNull
  | JBool (b : bool)
  | JInt (z : Z)
  | JFloat (f : F)
  | JStr (s : str)
  | JArr (l : list (json F))
  | JObj (m : list (str * json F)).

Arguments JNull {F}.
Arguments JBool {F} b.
Arguments JInt {F} z.
Arguments JFloat {F} f.
Arguments JStr {F} s.
Arguments JArr {F} l.
Arguments JObj {F} m.

(** The functions of Python's library that the script calls and that are
    taken as given. *)
Class PyLib (F : Type) := {
  (** the integer a float compares equal to, if there is one *)
  float_int : F -> option Z;
  (** the text [json.dumps] writes for a float *)
  float_repr : F -> str;
  (** [str(v)], used by f-strings, for a value that is not a string *)
  py_str : json F -> str;
  (** [json.loads(s)]; [None] when it raises *)
  json_loads : str -> option (json F);
  (** [textwrap.fill(line, width=width)], for a positive width *)
  fill : str -> Z -> str
}.

(** Exceptions that leave [print_conversation]. *)
Inductive exn := AttributeError | TypeError.

(** A computation that returns or raises. *)
Inductive res (A : Type) : Type :=
  | Ok (a : A)
  | Raise (e : exn).

Arguments Ok {A} a.
Arguments Raise {A} e.

Definition res_bind {A B} (m : res A) (f : A -> res B) : res B :=
  match m with
  | Ok a => f a
  | Raise e => Raise e
  end.

(** A computation that prints lines, then returns or raises. *)
Definition io (A : Type) : Type := list str * res A.

Definition io_bind {A B} (m : io A) (f : A -> io B) : io B :=
  match m with
  | (out, Ok a) => let '(out', r) := f a in (out ++ out', r)
  | (out, Raise e) => (out, Raise e)
  end.

Definition io_ret {A} (a : A) : io A := ([], Ok a).

(** [print(line)] *)
Definition print (line : str) : io unit := ([line], Ok tt).

Definition lift {A} (m : res A) : io A := ([], m).

Declare Scope res_scope.
Declare Scope io_scope.
Delimit Scope res_scope with res.
Delimit Scope io_scope with io.

Notation "'let*' x ':=' m 'in' k" := (res_bind m (fun x => k))
  (at level 10, x pattern, m at level 100, k at level 200) : res_scope.
Notation "'let*' x ':=' m 'in' k" := (io_bind m (fun x => k))
  (at level 10, x pattern, m at level 100, k at level 200) : io_scope.
Notation "'do' m 'then' k" := (io_bind m (fun _ => k))
  (at level 10, m at level 100, k at level 200) : io_scope.

(** [for x in xs: body(x)], for a body that threads a state. *)
Fixpoint for_res {A S} (xs : list A) (body : S -> A -> res S) (s : S) : res S :=
  match xs with
  | [] => Ok s
  | x :: rest => res_bind (body s x) (for_res rest body)
  end.

(** [for x in xs: body(x)], for a body that prints. *)
Fixpoint for_io {A} (xs : list A) (body : A -> io unit) : io unit :=
  match xs with
  | [] => io_ret tt
  | x :: rest => io_bind (body x) (fun _ => for_io rest body)
  end.

(** [[f(x) for x in xs]], stopping at the first exception. *)
Fixpoint map_res {A B} (f : A -> res B) (xs : list A) : res (list B) :=
  match xs with
  | [] => Ok []
  | x :: rest =>
      res_bind (f x) (fun y => res_bind (map_res f rest) (fun ys => Ok (y :: ys)))
  end.

(** A key of a Python [dict]: values that compare equal are one key, so
    [True], [1] and [1.0] meet in [KInt 1]. *)
Inductive pykey (F : Type) : Type :=
  | KNone
  | KInt (z : Z)
  | KFloat (f : F)
  | KStr (s : str).

Arguments KNone {F}.
Arguments KInt {F} z.
Arguments KFloat {F} f.
Arguments KStr {F} s.

#[global] Instance pykey_eq_dec {F} `{EqDecision F} : EqDecision (pykey F).
Proof. solve_decision. Defined.

#[global] Instance pykey_countable {F} `{Countable F} : Countable (pykey F).
Proof.
  refine (inj_countable'
            (fun k => match k with
                      | KNone => inl (inl (inl tt))
                      | KInt z => inl (inl (inr z))
                      | KFloat f => inl (inr f)
                      | KStr s => inr s
                      end : unit + Z + F + str)
            (fun x => match x with
                      | inl (inl (inl _)) => KNone
                      | inl (inl (inr z)) => KInt z
                      | inl (inr f) => KFloat f
                      | inr s => KStr s
                      end) _).
  intros []; reflexivity.
Defined.

Section Viewer.

Context {F : Type} `{Countable F} `{PyLib F}.

Abbreviation value := (json F).
Abbreviation dict := (list (str * json F)).

Local Open Scope res_scope.

(** ** Python's operations on values *)

(** [bool(v)] *)
Definition truthy (v : value) : bool :=
  match v with
  | JNull => false
  | JBool b => b
  | JInt z => negb (z =? 0)
  | JFloat f => negb (bool_decide (float_int f = Some 0))
  | JStr s => negb (bool_decide (s = []))
  | JArr l => negb (bool_decide (l = []))
  | JObj m => negb (bool_decide (m = []))
  end.

(** [a or b] *)
Definition py_or (a b : value) : value := if truthy a then a else b.

(** [v == n] for an [int] [n] *)
Definition eq_int (v : value) (n : Z) : bool :=
  match v with
  | JInt z => z =? n
  | JBool b => (if b then 1 else 0) =? n
  | JFloat f => bool_decide (float_int f = Some n)
  | _ => false
  end.

(** [v == s] for a [str] [s] *)
Definition eq_str (v : value) (s : str) : bool :=
  match v with
  | JStr t => str_eqb t s
  | _ => false
  end.

(** [v is None] *)
Definition is_none (v : value) : bool :=
  match v with JNull => true | _ => false end.

(** The value stored under [k], if any. *)
Fixpoint dict_get (m : dict) (k : str) : option value :=
  match m with
  | [] => None
  | (k', v) :: rest => if str_eqb k' k then Some v else dict_get rest k
  end.

(** [v.get(k, d)]: only a dict has the method. *)
Definition get (v : value) (k : str) (d : value) : res value :=
  match v with
  | JObj m => Ok (default d (dict_get m k))
  | _ => Raise AttributeError
  end.

(** [v[k]] for a string [k], inside a [try]: [None] when it raises. *)
Definition subscript (v : value) (k : str) : option value :=
  match v with
  | JObj m => dict_get m k
  | _ => None
  end.

(** [for x in v]: the elements the loop visits. *)
Definition iter (v : value) : res (list value) :=
  match v with
  | JArr l => Ok l
  | JObj m => Ok (map (fun kv => JStr (fst kv)) m)
  | JStr s => Ok (map (fun c => JStr [c]) s)
  | _ => Raise TypeError
  end.

(** A string method ([splitlines], [strip], [replace]) looked up on [v]. *)
Definition as_str (v : value) : res str :=
  match v with
  | JStr s => Ok s
  | _ => Raise AttributeError
  end.

(** [f"{v}"] *)
Definition fmt (v : value) : str :=
  match v with
  | JStr s => s
  | _ => py_str v
  end.

(** [v] as a dict key; lists and dicts are unhashable. *)
Definition to_key (v : value) : res (pykey F) :=
  match v with
  | JNull => Ok KNone
  | JBool b => Ok (KInt (if b then 1 else 0))
  | JInt z => Ok (KInt z)
  | JFloat f => Ok (match float_int f with Some z => KInt z | None => KFloat f end)
  | JStr s => Ok (KStr s)
  | JArr _ | JObj _ => Raise TypeError
  end.

(** ** [json.dumps(v, ensure_ascii=False)] *)

Definition hex_digit (n : N) : N := if (n <? 10)%N then (48 + n)%N else (87 + n)%N.

Definition escape_char (c : N) : str :=
  if (c =? 34)%N then [92; 34]%N
  else if (c =? 92)%N then [92; 92]%N
  else if (c =? 8)%N then [92; 98]%N
  else if (c =? 12)%N then [92; 102]%N
  else if (c =? 10)%N then [92; 110]%N
  else if (c =? 13)%N then [92; 114]%N
  else if (c =? 9)%N then [92; 116]%N
  else if (c <? 32)%N then [92; 117; 48; 48; hex_digit (c / 16); hex_digit (c mod 16)]%N
  else [c].

Definition dumps_str (s : str) : str :=
  [34%N] ++ concat (map escape_char s) ++ [34%N].

Fixpoint json_dumps (v : value) : str :=
  match v with
  | JNull => u "null"
  | JBool b => if b then u "true" else u "false"
  | JInt z => str_of_int z
  | JFloat f => float_repr f
  | JStr s => dumps_str s
  | JArr l => u "[" ++ join (u ", ") (map json_dumps l) ++ u "]"
  | JObj m =>
      u "{" ++ join (u ", ")
                 (map (fun kv => match kv with
                                 | (k, x) => dumps_str k ++ u ": " ++ json_dumps x
                                 end) m)
        ++ u "}"
  end.

(** ** [_wrap] and [_compact_args] *)

Definition _wrap (text : str) (width : Z) : str :=
  if width <=? 0 then text
  else
    join [10%N]
      (map (fun line =>
              let t := strip line in
              if startswith t (u "```") || startswith t (u "> ")
                 || startswith t (u "- ") || startswith t (u "* ")
              then line
              else fill line width)
           (splitlines false text)).

(** The inner function [trunc] of [_compact_args]. *)
Definition trunc (v : value) : str :=
  let s := json_dumps v in
  if len s <=? 80 then s else slice_to s 79 ++ u "…".

Definition _compact_args (arg_str : str) (max_len : Z) : str :=
  match arg_str with
  | [] => []
  | _ =>
      match json_loads arg_str with
      | None =>
          let s := replace_newlines arg_str in
          if len s <=? max_len then s else slice_to s (max_len - 1) ++ u "…"
      | Some args =>
          let out :=
            match args with
            | JObj m => join (u ", ") (map (fun kv => fst kv ++ u "=" ++ trunc (snd kv)) m)
            | _ => trunc args
            end in
          if len out <=? max_len then out else slice_to out (max_len - 1) ++ u "…"
      end
  end.

(** [_compact_args(v)] as [print_conversation] calls it, on whatever the
    [arguments] field holds: a value that is not a string and not falsy
    makes [json.loads] raise, which is caught, and then has no [replace]. *)
Definition call_compact_args (v : value) : res str :=
  if truthy v then
    match v with
    | JStr s => Ok (_compact_args s 200)
    | _ => Raise AttributeError
    end
  else Ok [].

(** ** [print_conversation] *)

(** What the file system and [json.load] give for a path. *)
Inductive load_result :=
  | FileMissing
  | LoadFailed (e : str)
  | Loaded (data : value).

(** The test of the lookup loop on one entry. *)
Definition record_matches (task_id trial : Z) (entry : value) : bool :=
  match entry with
  | JObj m =>
      eq_int (default JNull (dict_get m (u "task_id"))) task_id
      && eq_int (default JNull (dict_get m (u "trial"))) trial
  | _ => false
  end.

(** The loop that looks for the entry, leaving at the first hit. *)
Definition find_match (data : list value) (task_id trial : Z) : option value :=
  find (record_matches task_id trial) data.

(** [match["info"]["task"]["instruction"]] under its [try]. *)
Definition instruction (match_ : value) : value :=
  default JNull
    (i ← subscript match_ (u "info");
     t ← subscript i (u "task");
     subscript t (u "instruction")).

(** The part of a tool call that both loops read: the [function]
    mapping, defaulting to an empty one. *)
Definition call_function (tc : value) : res value :=
  let* f := get (py_or tc (JObj [])) (u "function") JNull in
  Ok (py_or f (JObj [])).

(** The body of the inner loop that fills [id2call]. *)
Definition index_call (id2call : gmap (pykey F) (value * str)) (tc : value)
  : res (gmap (pykey F) (value * str)) :=
  let* func := call_function tc in
  let* fname := get func (u "name") (JStr []) in
  let* fargs := get func (u "arguments") (JStr []) in
  let* comp := call_compact_args fargs in
  let* id1 := get tc (u "id") JNull in
  let* call_id := (if truthy id1 then Ok id1 else get tc (u "tool_call_id") JNull) in
  if truthy call_id then
    let* k := to_key call_id in
    Ok (<[k := (fname, comp)]> id2call)
  else Ok id2call.

(** The body of the outer loop that fills [id2call]. *)
Definition index_turn (id2call : gmap (pykey F) (value * str)) (turn : value)
  : res (gmap (pykey F) (value * str)) :=
  let* role := get turn (u "role") JNull in
  if eq_str role (u "assistant") then
    let* tcs := get turn (u "tool_calls") JNull in
    let* calls := iter (py_or tcs (JArr [])) in
    for_res calls index_call id2call
  else Ok id2call.

Definition build_id2call (traj : list value) : res (gmap (pykey F) (value * str)) :=
  for_res traj index_turn ∅.

(** The test of the loop that looks for the first user turn. *)
Definition is_user_turn (turn : value) : bool :=
  match turn with
  | JObj m => eq_str (default JNull (dict_get m (u "role"))) (u "user")
  | _ => false
  end.

Fixpoint first_user (traj : list value) : option nat :=
  match traj with
  | [] => None
  | turn :: rest => if is_user_turn turn then Some 0%nat else S <$> first_user rest
  end.

(** [start_idx] after the loop: it stays at 0 when no turn is a hit. *)
Definition start_idx (traj : list value) : nat := default 0%nat (first_user traj).

(** One entry of the summary an assistant turn without content gets. *)
Definition call_summary (tc : value) : res str :=
  let* func := call_function tc in
  let* fname := get func (u "name") (JStr (u "<?>")) in
  let* fargs := get func (u "arguments") (JStr []) in
  let* comp := call_compact_args fargs in
  Ok (match comp with
      | [] => fmt fname ++ u "()"
      | _ => fmt fname ++ u "(" ++ comp ++ u ")"
      end).

(** The branch [role == "tool"]: the tag of the turn. *)
Definition tool_role_tag (id2call : gmap (pykey F) (value * str))
    (tool_name tool_call_id : value) (color : bool) : res str :=
  let* (fname, comp) :=
    (if truthy tool_call_id then
       let* k := to_key tool_call_id in
       Ok (default (JStr [], []) (id2call !! k))
     else Ok (JStr [], [])) in
  let display := py_or tool_name (py_or fname (JStr [])) in
  Ok (if truthy display && negb (bool_decide (comp = [])) then
        _color (u "[tool:" ++ fmt display ++ u "(" ++ comp ++ u ")]") sTool color
      else if truthy display then
        _color (u "[tool:" ++ fmt display ++ u "]") sTool color
      else _color (u "[tool]") sTool color).

(** The chain of tests on [role]: the tag and the message of a turn. *)
Definition role_tag_and_msg (id2call : gmap (pykey F) (value * str))
    (turn : value) (color : bool) : res (str * value) :=
  let* role := get turn (u "role") (JStr (u "assistant")) in
  let* raw_content := get turn (u "content") JNull in
  let* tool_name := get turn (u "name") JNull in
  let* tool_call_id := get turn (u "tool_call_id") JNull in
  if eq_str role (u "assistant") then
    let role_tag := _color (u "[assistant]") sAssistant color in
    if is_none raw_content then
      let* tcs := get turn (u "tool_calls") JNull in
      let tool_calls := py_or tcs (JArr []) in
      if truthy tool_calls then
        let* calls := iter tool_calls in
        let* parts := map_res call_summary calls in
        Ok (role_tag, JStr (u "→ tool call(s): " ++ join (u "; ") parts))
      else Ok (role_tag, JStr [])
    else Ok (role_tag, raw_content)
  else if eq_str role (u "user") then
    Ok (_color (u "[user]") sUser color, py_or raw_content (JStr []))
  else if eq_str role (u "tool") then
    let* role_tag := tool_role_tag id2call tool_name tool_call_id color in
    Ok (role_tag, py_or raw_content (JStr []))
  else if eq_str role (u "system") then
    Ok (_color (u "[system]") sMeta color, py_or raw_content (JStr []))
  else
    Ok (_color (u "[" ++ fmt role ++ u "]") sMeta color, py_or raw_content (JStr [])).

(** [_wrap(msg, width)] on whatever the message is: with a width that is
    not positive the value comes back as it is. *)
Definition wrap_value (msg : value) (width : Z) : res value :=
  if width <=? 0 then Ok msg
  else
    let* s := as_str msg in
    Ok (JStr (_wrap s width)).

(** The two [print]s that end the body of the rendering loop. *)
Definition print_body (msg_wrapped : str) (color : bool) : io unit :=
  match strip msg_wrapped with
  | [] => print (indent (_color (u "(no content)") sDim color) (u "  "))
  | _ => print (indent msg_wrapped (u "  "))
  end.

(** The body of the rendering loop. *)
Definition render_turn (id2call : gmap (pykey F) (value * str))
    (width : Z) (color : bool) (turn : value) : io unit :=
  (let* (role_tag, msg) := lift (role_tag_and_msg id2call turn color) in
   let* msg_wrapped := lift (wrap_value msg width) in
   do print (role_tag ++ u " ") then
   let* text := lift (as_str msg_wrapped) in
   print_body text color)%io.

(** From the table of calls to the end: the rest of the function once
    the header is out. *)
Definition render_trajectory (traj : value) (width : Z) (color : bool) : io unit :=
  (let* turns := lift (iter traj) in
   let* id2call := lift (build_id2call turns) in
   for_io (drop (start_idx turns) turns) (render_turn id2call width color))%io.

Definition header (task_id trial : Z) : str :=
  u "Conversation — task_id=" ++ str_of_int task_id ++ u ", trial=" ++ str_of_int trial.

(** The function from the point where [match] is known. *)
Definition render_record (match_ : value) (task_id trial width : Z) (color : bool)
  : io unit :=
  (let* traj := lift (get match_ (u "traj") (JArr [])) in
   if truthy traj then
     let rule := _color (str_repeat (u "─") (len (header task_id trial))) sMeta color in
     do print (_color (header task_id trial) sBold color) then
     do print rule then
     let instr := instruction match_ in
     do (if truthy instr then
           do print (_color (u "[instruction]") sBold color) then
           let* w := lift (wrap_value instr width) in
           let* text := lift (as_str w) in
           do print (indent text (u "  ")) then
           print rule
         else io_ret tt) then
     render_trajectory traj width color
   else print (_color (u "[error] No 'traj' found in the selected record.") sError color))%io.

Definition print_conversation (fs : str -> load_result) (file_path : str)
    (task_id trial : Z) (width : Z) (color : bool) : io unit :=
  match fs file_path with
  | FileMissing =>
      print (_color (u "[error] File not found: " ++ file_path) sError color)
  | LoadFailed e =>
      print (_color (u "[error] Failed to parse JSON: " ++ e) sError color)
  | Loaded (JArr data) =>
      match find_match data task_id trial with
      | None =>
          print (_color (u "[error] No record found for task_id=" ++ str_of_int task_id
                         ++ u ", trial=" ++ str_of_int trial ++ u ".") sError color)
      | Some match_ => render_record match_ task_id trial width color
      end
  | Loaded _ =>
      print (_color (u "[error] Expected a list at JSON top level.") sError color)
  end.

End Viewer.

(** ** A reference library for the examples

    The examples at the end run the model on float-free JSON.  For them
    the library is instantiated with
    - a JSON reader for documents without fractions, exponents, [NaN],
      [Infinity] and surrogate escapes (it answers [None] on those, so no
      example feeds it one);
    - a [fill] that gives a line back as it is, which is what
      [textwrap.fill] does with a line of words separated by single
      blanks that fits the width (the examples wrap no other line);
    - [str] for [None], booleans and integers (no example formats a list
      or a mapping). *)
Module Ref.

Definition is_json_ws (c : N) : bool :=
  ((c =? 32) || (c =? 9) || (c =? 10) || (c =? 13))%N.

Fixpoint skip_ws (s : str) : str :=
  match s with
  | c :: rest => if is_json_ws c then skip_ws rest else s
  | [] => []
  end.

Definition hex_value (c : N) : option N :=
  if ((48 <=? c) && (c <=? 57))%N then Some (c - 48)%N
  else if ((97 <=? c) && (c <=? 102))%N then Some (c - 87)%N
  else if ((65 <=? c) && (c <=? 70))%N then Some (c - 55)%N
  else None.

(** The characters of a string literal after its opening quote. *)
Fixpoint parse_string (s : str) (acc : str) : option (str * str) :=
  match s with
  | [] => None
  | c :: rest =>
      if (c =? 34)%N then Some (reverse acc, rest)
      else if (c =? 92)%N then
        match rest with
        | e :: rest1 =>
            if (e =? 117)%N then
              match rest1 with
              | h1 :: h2 :: h3 :: h4 :: rest2 =>
                  a ← hex_value h1; b ← hex_value h2;
                  c' ← hex_value h3; d ← hex_value h4;
                  let cp := (a * 4096 + b * 256 + c' * 16 + d)%N in
                  if ((55296 <=? cp) && (cp <=? 57343))%N then None
                  else parse_string rest2 (cp :: acc)
              | _ => None
              end
            else
              ch ← (if (e =? 34)%N then Some 34%N
                    else if (e =? 92)%N then Some 92%N
                    else if (e =? 47)%N then Some 47%N
                    else if (e =? 98)%N then Some 8%N
                    else if (e =? 102)%N then Some 12%N
                    else if (e =? 110)%N then Some 10%N
                    else if (e =? 114)%N then Some 13%N
                    else if (e =? 116)%N then Some 9%N
                    else None);
              parse_string rest1 (ch :: acc)
        | [] => None
        end
      else if (c <? 32)%N then None
      else parse_string rest (c :: acc)
  end.

Definition is_digit (c : N) : bool := ((48 <=? c) && (c <=? 57))%N.

Fixpoint parse_digits (s : str) (acc : Z) : Z * str :=
  match s with
  | c :: rest =>
      if is_digit c then parse_digits rest (10 * acc + Z.of_N (c - 48)) else (acc, s)
  | [] => (acc, [])
  end.

(** An integer literal; a fraction or an exponent after it is not read. *)
Definition parse_int (s : str) : option (Z * str) :=
  let '(neg, s1) := match s with
                    | 45%N :: rest => (true, rest)
                    | _ => (false, s)
                    end in
  match s1 with
  | c :: rest =>
      if is_digit c then
        let '(n, s2) := if (c =? 48)%N then (0, rest) else parse_digits s1 0 in
        match s2 with
        | d :: _ =>
            if ((d =? 46) || (d =? 101) || (d =? 69))%N then None
            else Some (if neg then - n else n, s2)
        | [] => Some (if neg then - n else n, [])
        end
      else None
  | [] => None
  end.

(** [d[k] = v] on a dict kept as a list of items. *)
Fixpoint dict_set {A} (m : list (str * A)) (k : str) (v : A) : list (str * A) :=
  match m with
  | [] => [(k, v)]
  | (k', v') :: rest =>
      if str_eqb k' k then (k', v) :: rest else (k', v') :: dict_set rest k v
  end.

Section Parser.

Context {F : Type}.
Variable parse_value : str -> option (json F * str).

(** The items of an array, after the first has been found to exist. *)
Fixpoint parse_items (n : nat) (s : str) (acc : list (json F))
  : option (list (json F) * str) :=
  match n with
  | O => None
  | S n' =>
      '(v, r) ← parse_value s;
      match skip_ws r with
      | c :: r' =>
          if (c =? 93)%N then Some (reverse (v :: acc), r')
          else if (c =? 44)%N then parse_items n' (skip_ws r') (v :: acc)
          else None
      | [] => None
      end
  end.

(** The members of an object, from the quote that opens a key. *)
Fixpoint parse_members (n : nat) (s : str) (acc : list (str * json F))
  : option (list (str * json F) * str) :=
  match n with
  | O => None
  | S n' =>
      match s with
      | 34%N :: r0 =>
          '(k, r1) ← parse_string r0 [];
          match skip_ws r1 with
          | 58%N :: r2 =>
              '(v, r3) ← parse_value (skip_ws r2);
              match skip_ws r3 with
              | c :: r4 =>
                  if (c =? 125)%N then Some (dict_set acc k v, r4)
                  else if (c =? 44)%N then parse_members n' (skip_ws r4) (dict_set acc k v)
                  else None
              | [] => None
              end
          | _ => None
          end
      | _ => None
      end
  end.

End Parser.

Fixpoint parse_value {F} (fuel : nat) (s : str) : option (json F * str) :=
  match fuel with
  | O => None
  | S n =>
      match s with
      | [] => None
      | c :: rest =>
          if (c =? 34)%N then
            '(t, r) ← parse_string rest []; Some (JStr t, r)
          else if (c =? 123)%N then
            match skip_ws rest with
            | 125%N :: r => Some (JObj [], r)
            | r => '(m, r') ← parse_members (parse_value n) n r []; Some (JObj m, r')
            end
          else if (c =? 91)%N then
            match skip_ws rest with
            | 93%N :: r => Some (JArr [], r)
            | r => '(l, r') ← parse_items (parse_value n) n r []; Some (JArr l, r')
            end
          else if startswith s (u "null") then Some (JNull, drop 4 s)
          else if startswith s (u "true") then Some (JBool true, drop 4 s)
          else if startswith s (u "false") then Some (JBool false, drop 5 s)
          else '(z, r) ← parse_int s; Some (JInt z, r)
      end
  end.

Definition loads {F} (s : str) : option (json F) :=
  let s0 := skip_ws s in
  '(v, r) ← parse_value (S (length s0)) s0;
  match skip_ws r with
  | [] => Some v
  | _ => None
  end.

Definition str_of_value (v : json Empty_set) : str :=
  match v with
  | JNull => u "None"
  | JBool b => if b then u "True" else u "False"
  | JInt z => str_of_int z
  | JStr s => s
  | _ => []
  end.

#[global] Instance lib : PyLib Empty_set := {
  float_int f := match f with end;
  float_repr f := match f with end;
  py_str := str_of_value;
  json_loads := loads;
  fill line width := line
}.

End Ref.

(** ** Sample data

    The conversation of the spec's scenario and some variations of it,
    for the examples at the end. *)
Module Samples.

Abbreviation val := (json Empty_set).

Definition txt (x : string) : val := JStr (u x).

(** A tool call with an identifier, a function name and an argument text. *)
Definition call (id name : string) (args : str) : val :=
  JObj [(u "id", txt id);
        (u "function", JObj [(u "name", txt name); (u "arguments", JStr args)])].

Definition user_hi : val :=
  JObj [(u "role", txt "user"); (u "content", txt "hi")].

Definition assistant_calls (calls : list val) : val :=
  JObj [(u "role", txt "assistant"); (u "content", JNull); (u "tool_calls", JArr calls)].

Definition lookup_call : val := call "c1" "lookup" (jq "{'x':1}").

Definition tool_result : val :=
  JObj [(u "role", txt "tool"); (u "tool_call_id", txt "c1"); (u "content", txt "result")].

(** A tool turn that carries a name of its own, other than the name of
    the call it answers. *)
Definition tool_named : list (str * val) :=
  [(u "role", txt "tool"); (u "name", txt "search");
   (u "tool_call_id", txt "c1"); (u "content", txt "result")].

(** The trajectory of the spec's scenario. *)
Definition traj : list val := [user_hi; assistant_calls [lookup_call]; tool_result].

Definition traj_named : list val :=
  [user_hi; assistant_calls [lookup_call]; JObj tool_named].

(** One assistant turn whose calls use the identifier [c1] twice. *)
Definition traj_dup : list val :=
  [assistant_calls [lookup_call; call "c2" "f" (jq "{}"); call "c1" "second" (jq "[1, 2]")]].

(** The scenario behind a system prompt and a greeting of the assistant:
    two turns stand before the first user turn. *)
Definition traj_after_preamble : list val :=
  JObj [(u "role", txt "system"); (u "content", txt "You are an agent.")]
  :: JObj [(u "role", txt "assistant"); (u "content", txt "Hello.")]
  :: traj.

(** A trajectory without any user turn. *)
Definition traj_no_user : list val :=
  [JObj [(u "role", txt "assistant"); (u "content", txt "hello")]].

(** A turn without a [role] key. *)
Definition no_role : list (str * val) :=
  [(u "content", JNull); (u "tool_calls", JArr [lookup_call])].

Definition record (task_id trial : Z) (turns : list val) : val :=
  JObj [(u "task_id", JInt task_id); (u "trial", JInt trial); (u "traj", JArr turns)].

(** A collection with an entry that is not a mapping, a record of another
    task, and two records of task 1, trial 0. *)
Definition before : list val := [txt "junk"; record 5 0 traj].
Definition after : list val := [record 1 0 traj_no_user].

(** The text of a mapping with four values of 78 letters each, whose
    JSON encodings have 80 characters. *)
Definition four_long_values : str :=
  jq "{'k1': '" ++ str_repeat (u "a") 78 ++ jq "', 'k2': '" ++ str_repeat (u "b") 78
  ++ jq "', 'k3': '" ++ str_repeat (u "c") 78 ++ jq "', 'k4': '" ++ str_repeat (u "d") 78
  ++ jq "'}".

Definition c1_index : gmap (pykey Empty_set) (val * str) :=
  {[ KStr (u "c1") := (txt "lookup", u "x=1") ]}.

End Samples.

(** ** Notions the statements need *)

Section Notions.

Context {F : Type} `{Countable F} `{PyLib F}.

(** [isinstance(v, dict)] *)
Definition is_dict (v : json F) : bool :=
  match v with
  | JObj _ => true
  | _ => false
  end.

(** A field that is absent, [null] or a string. *)
Definition opt_str (v : option (json F)) : bool :=
  match v with
  | None | Some JNull | Some (JStr _) => true
  | _ => false
  end.

(** The text of such a field, empty when it is absent or [null]. *)
Definition text_of (v : option (json F)) : str :=
  match v with
  | Some (JStr s) => s
  | _ => []
  end.

(** A tool call as the data model has it: a mapping whose identifiers are
    strings and whose [function], when present, is a mapping with a string
    [name] and a string [arguments]. *)
Definition wf_call (tc : json F) : bool :=
  match tc with
  | JObj m =>
      opt_str (dict_get m (u "id")) && opt_str (dict_get m (u "tool_call_id"))
      && match dict_get m (u "function") with
         | None | Some JNull => true
         | Some (JObj f) =>
             opt_str (dict_get f (u "name")) && opt_str (dict_get f (u "arguments"))
         | _ => false
         end
  | _ => false
  end.

(** A turn as the data model has it: a mapping whose [content], [name]
    and [tool_call_id] are strings when present and whose [tool_calls],
    when present, is a sequence of tool calls.  The [role] is free. *)
Definition wf_turn (turn : json F) : bool :=
  match turn with
  | JObj m =>
      opt_str (dict_get m (u "content")) && opt_str (dict_get m (u "name"))
      && opt_str (dict_get m (u "tool_call_id"))
      && match dict_get m (u "tool_calls") with
         | None | Some JNull => true
         | Some (JArr calls) => forallb wf_call calls
         | _ => false
         end
  | _ => false
  end.

Definition wf_traj (traj : list (json F)) : bool := forallb wf_turn traj.

(** The tool calls of a turn of the data model. *)
Definition tool_calls_of (turn : json F) : list (json F) :=
  match turn with
  | JObj m => match dict_get m (u "tool_calls") with
              | Some (JArr calls) => calls
              | _ => []
              end
  | _ => []
  end.

(** The identifier of a tool call: [id], or else [tool_call_id]; none when
    both are missing or empty. *)
Definition call_ident (tc : json F) : option str :=
  match tc with
  | JObj m =>
      match text_of (dict_get m (u "id")) with
      | [] => match text_of (dict_get m (u "tool_call_id")) with
              | [] => None
              | i => Some i
              end
      | i => Some i
      end
  | _ => None
  end.

(** The function mapping of a tool call, empty when there is none. *)
Definition call_fields (tc : json F) : list (str * json F) :=
  match tc with
  | JObj m => match dict_get m (u "function") with
              | Some (JObj f) => f
              | _ => []
              end
  | _ => []
  end.

(** What the index records for a tool call: the function name (the empty
    string when missing) and the compacted arguments. *)
Definition call_info (tc : json F) : json F * str :=
  (default (JStr []) (dict_get (call_fields tc) (u "name")),
   _compact_args (text_of (dict_get (call_fields tc) (u "arguments"))) 200).

Definition is_assistant_turn (turn : json F) : bool :=
  match turn with
  | JObj m => eq_str (default JNull (dict_get m (u "role"))) (u "assistant")
  | _ => false
  end.

(** The entry a tool call stands for, if it has an identifier. *)
Definition call_entry (tc : json F) : option (pykey F * (json F * str)) :=
  (fun i => (KStr i, call_info tc)) <$> call_ident tc.

(** The entries a turn contributes: those of its tool calls if it is an
    assistant turn, none otherwise. *)
Definition turn_entries (turn : json F) : list (pykey F * (json F * str)) :=
  if is_assistant_turn turn then omap call_entry (tool_calls_of turn) else [].

(** The entries of the CallIndex in document order, as the spec lists
    them: every tool call of every assistant turn that has an identifier. *)
Definition index_entries (traj : list (json F)) : list (pykey F * (json F * str)) :=
  flat_map turn_entries traj.

(** One assignment [id2call[k] = v]. *)
Definition record_entry (id2call : gmap (pykey F) (json F * str))
    (e : pykey F * (json F * str)) : gmap (pykey F) (json F * str) :=
  <[e.1 := e.2]> id2call.

(** The entry that wins for a key: the last one in document order. *)
Definition last_entry (k : pykey F) (entries : list (pykey F * (json F * str)))
  : option (json F * str) :=
  snd <$> last (filter (fun e => e.1 = k) entries).

(** The label of a tool turn: the turn's own name if it has one, else
    the name the CallIndex gives; the arguments follow in parentheses when
    there are any; without a name the bare marker. *)
Definition tool_label (own fname comp : str) : str :=
  let name := match own with [] => fname | _ => own end in
  match name, comp with
  | [], _ => u "[tool]"
  | _, [] => u "[tool:" ++ name ++ u "]"
  | _, _ => u "[tool:" ++ name ++ u "(" ++ comp ++ u ")]"
  end.

End Notions.

(** The body block of a turn whose wrapped message is [wrapped]. *)
Definition body_line (wrapped : str) (color : bool) : str :=
  if forallb isspace wrapped
  then u "  " ++ _color (u "(no content)") sDim color
  else indent wrapped (u "  ").

(** Reading the compact form back, as the spec's round-trip property has
    it: the text is cut at every comma followed by a blank, and the key of
    a segment is what stands before its first equals sign. *)
Fixpoint split_segments (cur s : str) : list str :=
  match s with
  | [] => [cur]
  | c :: rest =>
      match rest with
      | d :: rest' =>
          if ((c =? 44) && (d =? 32))%N then cur :: split_segments [] rest'
          else split_segments (cur ++ [c]) rest
      | [] => [cur ++ [c]]
      end
  end.

Fixpoint key_of_segment (seg : str) : str :=
  match seg with
  | [] => []
  | c :: rest => if (c =? 61)%N then [] else c :: key_of_segment rest
  end.

Definition reparse_keys (out : str) : list str :=
  match out with
  | [] => []
  | _ => map key_of_segment (split_segments [] out)
  end.

(** Whether a comma followed by a blank occurs in [s]. *)
Fixpoint has_sep (s : str) : bool :=
  match s with
  | c :: rest =>
      match rest with
      | d :: _ => ((c =? 44) && (d =? 32))%N || has_sep rest
      | [] => false
      end
  | [] => false
  end.

(** Whether [s] is made of whitespace only. *)
Definition blank (s : str) : bool := forallb isspace s.

(** ** The command line *)

(** [_supports_color(force_color)]: [isatty] is what [sys.stdout.isatty()]
    answers and [os_name] is [os.name]. *)
Definition _supports_color (isatty : bool) (os_name : str) (force_color : bool) : bool :=
  if force_color then true
  else if negb isatty then false
  else if str_eqb os_name (u "nt") then true
  else true.

(** What [parse_args] returns for the parser of [_build_argparser]. *)
Record Namespace := {
  args_file : str;
  args_task_id : Z;
  args_trial : Z;
  args_width : Z;
  args_no_color : bool
}.

Section Shell.

Context {F : Type} `{Countable F} `{PyLib F}.

(** [main], from the point where the arguments are parsed. *)
Definition main (isatty : bool) (os_name : str) (fs : str -> load_result)
    (args : Namespace) : io unit :=
  let use_color := _supports_color isatty os_name (negb (args_no_color args)) in
  print_conversation fs (args_file args) (args_task_id args) (args_trial args)
    (args_width args) use_color.

(** Whether the walk [match["info"]["task"]["instruction"]] of a record
    ends without an instruction to show: a level is missing or is not a
    mapping, or the value found is falsy. *)
Definition no_instruction (m : list (str * json F)) : bool :=
  match dict_get m (u "info") with
  | Some (JObj info) =>
      match dict_get info (u "task") with
      | Some (JObj task) =>
          match dict_get task (u "instruction") with
          | Some v => negb (truthy v)
          | None => true
          end
      | _ => true
      end
  | _ => true
  end.

End Shell.

(** Whether [_wrap] passes a line on as it is: after stripping it starts
    with a code fence, a quote marker or a bullet. *)
Definition keeps_line (line : str) : bool :=
  let t := strip line in
  startswith t (u "```") || startswith t (u "> ")
  || startswith t (u "- ") || startswith t (u "* ").

(** Whether [s] is free of the characters [splitlines] breaks at. *)
Definition no_linebreak (s : str) : bool := forallb (fun c => negb (is_linebreak c)) s.

(** ** More sample data *)
Module MoreSamples.

Import Samples.

(** The items of the scenario's record, which has no [info]. *)
Definition plain_record : list (str * val) :=
  [(u "task_id", JInt 1); (u "trial", JInt 0); (u "traj", JArr traj)].

(** The items of a record whose instruction is [instr]. *)
Definition record_with_instruction (instr : val) : list (str * val) :=
  [(u "task_id", JInt 1); (u "trial", JInt 0);
   (u "info", JObj [(u "task", JObj [(u "instruction", instr)])]);
   (u "traj", JArr traj)].

(** An assistant turn with the empty string for content and a tool call. *)
Definition assistant_empty_content : list (str * val) :=
  [(u "role", txt "assistant"); (u "content", JStr []); (u "tool_calls", JArr [lookup_call])].

Definition developer_note : list (str * val) :=
  [(u "role", txt "developer"); (u "content", txt "note")].

(** A code fence, an indented bullet and a quote. *)
Definition marked_lines : list str := [u "```py"; u "  - item"; u "> quote"].

(** [--file results.json --task-id 1 --trial 0 --no-color] *)
Definition no_color_args : Namespace :=
  {| args_file := u "results.json"; args_task_id := 1; args_trial := 0;
     args_width := 100; args_no_color := true |}.

(** A trajectory with a [null] among its turns. *)
Definition traj_with_null : list val := [user_hi; JNull; tool_result].

(** A user turn whose content is a list of parts, not a text. *)
Definition content_in_parts : list (str * val) :=
  [(u "role", txt "user");
   (u "content", JArr [JObj [(u "type", txt "text"); (u "text", txt "hi")]])].

End MoreSamples.

(** * Properties *)

(** ** Strings *)

Lemma len_nonneg (s : str) : 0 <= len s.
Proof. unfold len. lia. Qed.

Lemma len_app (a b : str) : len (a ++ b) = len a + len b.
Proof. unfold len. rewrite length_app. lia. Qed.

Lemma len_replace_newlines (s : str) : len (replace_newlines s) = len s.
Proof. unfold len, replace_newlines. by rewrite length_map. Qed.

Lemma replace_newlines_no_newline (s : str) : ~ In 10%N (replace_newlines s).
Proof.
  unfold replace_newlines. intros Hin. apply in_map_iff in Hin as (c & Hc & _).
  destruct (N.eqb_spec c 10); [discriminate | congruence].
Qed.

Lemma len_slice_to (s : str) (n : Z) : 0 <= n <= len s -> len (slice_to s n) = n.
Proof.
  intros Hn. unfold slice_to, len in *.
  destruct (Z.leb_spec 0 n); [| lia]. rewrite length_take. lia.
Qed.

Lemma slice_to_sublist (s : str) (n : Z) (c : N) : In c (slice_to s n) -> In c s.
Proof.
  unfold slice_to. rewrite <- !list_elem_of_In.
  destruct (0 <=? n); apply subseteq_take.
Qed.

Lemma blank_app (a b : str) : blank (a ++ b) = blank a && blank b.
Proof. unfold blank. apply forallb_app. Qed.

Lemma blank_reverse (s : str) : blank (reverse s) = blank s.
Proof.
  induction s as [| c s IH]; [done |].
  rewrite reverse_cons, blank_app, IH. simpl. rewrite andb_true_r. apply andb_comm.
Qed.

Lemma lstrip_blank (s : str) : blank s = true -> lstrip s = [].
Proof.
  induction s as [| c s IH]; [done |]. simpl.
  intros [Hc Hs]%andb_prop. rewrite Hc. auto.
Qed.

Lemma lstrip_keeps_blank (s : str) : blank (lstrip s) = blank s.
Proof.
  induction s as [| c s IH]; [done |]. simpl.
  destruct (isspace c) eqn:Hc; [by rewrite IH |]. simpl. by rewrite Hc.
Qed.

Lemma lstrip_nil (s : str) : lstrip s = [] -> blank s = true.
Proof.
  induction s as [| c s IH]; [done |]. simpl.
  destruct (isspace c) eqn:Hc; [auto | discriminate].
Qed.

(** [s.strip()] is empty exactly when [s] is whitespace only. *)
Lemma strip_nil_iff (s : str) : strip s = [] <-> blank s = true.
Proof.
  unfold strip, rstrip. split.
  - intros Hs. apply (f_equal reverse) in Hs. rewrite reverse_involutive in Hs.
    simpl in Hs. apply lstrip_nil in Hs.
    rewrite blank_reverse, lstrip_keeps_blank in Hs. exact Hs.
  - intros Hs. rewrite (lstrip_blank s Hs). reflexivity.
Qed.

Lemma concat_splitlines_from (n : nat) :
  forall (s cur : str), (length s <= n)%nat ->
  concat (splitlines_from true cur s) = cur ++ s.
Proof.
  induction n as [| n IH]; intros [| c rest] cur Hlen;
    try (simpl in Hlen; lia);
    try (destruct cur; simpl; by rewrite ?app_nil_r).
  cbn [splitlines_from]. cbn [length] in Hlen. destruct (is_linebreak c).
  - destruct rest as [| d rest'].
    + simpl. by rewrite app_nil_r.
    + cbn [length] in Hlen. destruct ((c =? 13)%N && (d =? 10)%N); cbn [concat].
      * rewrite (IH rest' []) by lia. by rewrite <- app_assoc.
      * rewrite (IH (d :: rest') []) by (cbn [length]; lia). by rewrite <- app_assoc.
  - rewrite (IH rest (cur ++ [c])) by lia. by rewrite <- app_assoc.
Qed.

(** The lines of [s.splitlines(True)] put together give [s] back. *)
Lemma concat_splitlines (s : str) : concat (splitlines true s) = s.
Proof. unfold splitlines. by rewrite (concat_splitlines_from (length s)). Qed.

Lemma blank_concat (ls : list str) : blank (concat ls) = forallb blank ls.
Proof.
  induction ls as [| l ls IH]; [done |]. simpl. by rewrite blank_app, IH.
Qed.

(** Indenting never blanks a text that has something to show. *)
Lemma indent_not_blank (text prefix : str) :
  blank text = false -> blank (indent text prefix) = false.
Proof.
  intros Htext. unfold indent.
  rewrite <- (concat_splitlines text), blank_concat in Htext.
  rewrite blank_concat.
  induction (splitlines true text) as [| l ls IH]; [done |].
  simpl in *. apply andb_false_iff in Htext as [Hl | Hls].
  - destruct (strip l) eqn:Hs.
    + apply strip_nil_iff in Hs. congruence.
    + rewrite blank_app, Hl, andb_false_r. reflexivity.
  - rewrite (IH Hls). apply andb_false_r.
Qed.

(** The placeholder, with or without colour, is one line that is not
    blank, so it gets the margin. *)
Lemma indent_placeholder (color : bool) :
  indent (_color (u "(no content)") sDim color) (u "  ")
  = u "  " ++ _color (u "(no content)") sDim color.
Proof. destruct color; vm_compute; reflexivity. Qed.

(** ** Reading the compact form back *)

Lemma has_sep_cons2 (c d : N) (s : str) :
  has_sep (c :: d :: s) = ((c =? 44) && (d =? 32))%N || has_sep (d :: s).
Proof. reflexivity. Qed.

Lemma has_sep_cons (c : N) (s : str) : has_sep (c :: s) = false -> has_sep s = false.
Proof.
  destruct s as [| d s]; [done |]. rewrite has_sep_cons2.
  intros Hs. by apply orb_false_iff in Hs as [_ Hs].
Qed.

(** The only way for the separator to show up in [a ++ b] without being
    in [a] or in [b] is across the seam. *)
Lemma has_sep_app (a b : str) :
  has_sep a = false -> has_sep b = false ->
  (forall b', b = 32%N :: b' -> last a <> Some 44%N) ->
  has_sep (a ++ b) = false.
Proof.
  induction a as [| c a IH]; intros Ha Hb Hseam; [done |].
  destruct a as [| d a].
  - destruct b as [| e b]; [done |].
    change ([c] ++ e :: b) with (c :: e :: b).
    rewrite has_sep_cons2, Hb, orb_false_r. apply andb_false_iff.
    destruct (N.eqb_spec c 44) as [-> |]; [| by left]. right.
    destruct (N.eqb_spec e 32) as [-> |]; [| done].
    by destruct (Hseam b).
  - change ((c :: d :: a) ++ b) with (c :: d :: (a ++ b)).
    rewrite has_sep_cons2 in Ha |- *.
    apply orb_false_iff in Ha as [Hcd Ha]. rewrite Hcd.
    change (d :: a ++ b) with ((d :: a) ++ b).
    apply (IH Ha Hb). intros b' ->. specialize (Hseam b' eq_refl).
    by rewrite last_cons_cons in Hseam.
Qed.

Lemma split_segments_cons2 (cur : str) (c d : N) (rest : str) :
  split_segments cur (c :: d :: rest)
  = if ((c =? 44) && (d =? 32))%N then cur :: split_segments [] rest
    else split_segments (cur ++ [c]) (d :: rest).
Proof. reflexivity. Qed.

(** Up to the first separator the text is one segment. *)
Lemma split_segments_app (p q cur : str) :
  has_sep p = false ->
  split_segments cur (p ++ u ", " ++ q) = (cur ++ p) :: split_segments [] q.
Proof.
  revert cur. induction p as [| c p IH]; intros cur Hp.
  - simpl. by rewrite app_nil_r.
  - change ((c :: p) ++ u ", " ++ q) with (c :: (p ++ u ", " ++ q)).
    destruct (p ++ u ", " ++ q) as [| d rest] eqn:Hrest.
    { by destruct p. }
    rewrite split_segments_cons2.
    assert (((c =? 44) && (d =? 32))%N = false) as ->.
    { destruct p as [| d' p]; simpl in Hrest; inversion Hrest; subst.
      - apply andb_false_r.
      - rewrite has_sep_cons2 in Hp. by apply orb_false_iff in Hp as [Hp _]. }
    rewrite (IH (cur ++ [c])) by (by eapply has_sep_cons).
    by rewrite <- app_assoc.
Qed.

Lemma split_segments_last (p cur : str) :
  has_sep p = false -> split_segments cur p = [cur ++ p].
Proof.
  revert cur. induction p as [| c p IH]; intros cur Hp.
  - simpl. by rewrite app_nil_r.
  - destruct p as [| d p]; [done |].
    rewrite split_segments_cons2.
    rewrite has_sep_cons2 in Hp. apply orb_false_iff in Hp as [Hcd Hp].
    rewrite Hcd, (IH (cur ++ [c]) Hp). by rewrite <- app_assoc.
Qed.

(** Splitting undoes joining when no part holds a separator. *)
Lemma split_segments_join (parts : list str) :
  parts <> [] -> Forall (fun p => has_sep p = false) parts ->
  split_segments [] (join (u ", ") parts) = parts.
Proof.
  induction parts as [| p parts IH]; [done |]. intros _ Hall.
  apply Forall_cons in Hall as [Hp Hall].
  destruct parts as [| p' parts].
  - simpl. by rewrite split_segments_last.
  - change (join (u ", ") (p :: p' :: parts))
      with (p ++ u ", " ++ join (u ", ") (p' :: parts)).
    rewrite split_segments_app by done. simpl app at 1. f_equal. by apply IH.
Qed.

Lemma key_of_segment_app (k rest : str) :
  ~ In 61%N k -> key_of_segment (k ++ 61%N :: rest) = k.
Proof.
  induction k as [| c k IH]; intros Hk; [done |]. simpl.
  destruct (N.eqb_spec c 61) as [-> | _].
  - destruct Hk. by left.
  - f_equal. apply IH. intros Hin. apply Hk. by right.
Qed.

Section Proofs.

Context {F : Type} `{Countable F} `{PyLib F}.

Local Open Scope res_scope.

(** ** Argument compaction *)

Lemma _compact_args_unparsable (arg_str : str) (max_len : Z) :
  arg_str <> [] -> json_loads arg_str = None ->
  _compact_args arg_str max_len
  = if len (replace_newlines arg_str) <=? max_len then replace_newlines arg_str
    else slice_to (replace_newlines arg_str) (max_len - 1) ++ u "…".
Proof.
  intros Hne Hload. unfold _compact_args. rewrite Hload. by destruct arg_str.
Qed.

Lemma _compact_args_mapping (arg_str : str) (max_len : Z) (m : list (str * json F)) :
  arg_str <> [] -> json_loads arg_str = Some (JObj m) ->
  _compact_args arg_str max_len
  = let out := join (u ", ") (map (fun kv => kv.1 ++ u "=" ++ trunc kv.2) m) in
    if len out <=? max_len then out else slice_to out (max_len - 1) ++ u "…".
Proof.
  intros Hne Hload. unfold _compact_args. rewrite Hload. by destruct arg_str.
Qed.


(** C5. Argument compaction obeys both truncation boundaries exactly: an
    argument string that does not parse and has exactly the maximum length
    is returned uncut, one with a character more is cut and ends with the
    ellipsis; a mapping value whose JSON encoding has exactly 80 characters
    is rendered uncut, one with 81 is cut to 79 characters and the
    ellipsis.  The rendered values are what the result is joined from
    whenever the joined text fits the maximum length. *)
Theorem C5_truncation_boundaries
    (raw arg_str : str) (max_len : Z) (m : list (str * json F)) :
  0 <= max_len ->
  json_loads raw = None ->
  arg_str <> [] -> json_loads arg_str = Some (JObj m) ->
  (len raw = max_len -> _compact_args raw max_len = replace_newlines raw)
  /\ (len raw = max_len + 1 ->
      _compact_args raw max_len
      = slice_to (replace_newlines raw) (max_len - 1) ++ u "…")
  /\ (forall v : json F, len (json_dumps v) = 80 -> trunc v = json_dumps v)
  /\ (forall v : json F, len (json_dumps v) = 81 ->
      trunc v = take 79 (json_dumps v) ++ u "…")
  /\ (let out := join (u ", ") (map (fun kv => kv.1 ++ u "=" ++ trunc kv.2) m) in
      len out <= max_len -> _compact_args arg_str max_len = out).
Proof.
  intros Hmax Hraw Hne Hload. repeat split.
  - intros Hlen. destruct (decide (raw = [])) as [-> | Hraw_ne]; [done |].
    rewrite (_compact_args_unparsable _ _ Hraw_ne Hraw). cbv zeta.
    rewrite len_replace_newlines, Hlen, Z.leb_refl. reflexivity.
  - intros Hlen. assert (raw <> []) as Hraw_ne.
    { intros ->. unfold len in Hlen. simpl in Hlen. lia. }
    rewrite (_compact_args_unparsable _ _ Hraw_ne Hraw). cbv zeta.
    rewrite len_replace_newlines, Hlen.
    destruct (Z.leb_spec (max_len + 1) max_len); [lia | reflexivity].
  - intros v Hv. unfold trunc. by rewrite Hv.
  - intros v Hv. unfold trunc. by rewrite Hv.
  - intros out Hout. rewrite (_compact_args_mapping _ _ _ Hne Hload). cbv zeta.
    fold out. destruct (Z.leb_spec (len out) max_len); [reflexivity | lia].
Qed.

Lemma has_sep_part (k : str) (v : json F) :
  has_sep k = false -> has_sep (trunc v) = false ->
  has_sep (k ++ u "=" ++ trunc v) = false.
Proof.
  intros Hk Hv. change (u "=" ++ trunc v) with (61%N :: trunc v).
  apply has_sep_app; [done | | done].
  destruct (trunc v) as [| c t]; [done |]. by rewrite has_sep_cons2, Hv.
Qed.

(** C3, amended. For every argument string that parses as a JSON mapping
    in which no key holds an equals sign, neither a key nor a rendered
    value holds a comma followed by a blank, and whose joined rendering
    fits the maximum length, reading the [key=value] segments of the
    compact form back yields exactly the keys of the mapping in their
    order. *)
Theorem C3_keys_read_back (arg_str : str) (max_len : Z) (m : list (str * json F)) :
  arg_str <> [] -> json_loads arg_str = Some (JObj m) ->
  Forall (fun kv => ~ In 61%N kv.1 /\ has_sep kv.1 = false
                    /\ has_sep (trunc kv.2) = false) m ->
  len (join (u ", ") (map (fun kv => kv.1 ++ u "=" ++ trunc kv.2) m)) <= max_len ->
  reparse_keys (_compact_args arg_str max_len) = map fst m.
Proof.
  intros Hne Hload Hm Hfit.
  rewrite (_compact_args_mapping _ _ _ Hne Hload). cbv zeta.
  destruct (Z.leb_spec (len (join (u ", ") (map (fun kv => kv.1 ++ u "=" ++ trunc kv.2) m)))
              max_len) as [_ | Hgt]; [| lia].
  destruct m as [| kv m]; [done |].
  set (parts := map (fun kv => kv.1 ++ u "=" ++ trunc kv.2) (kv :: m)).
  assert (join (u ", ") parts <> []) as Hout.
  { subst parts. destruct kv as [k v]. simpl. destruct m; simpl; by destruct k. }
  unfold reparse_keys. destruct (join (u ", ") parts) eqn:Hjoin; [done |].
  rewrite <- Hjoin, split_segments_join.
  - subst parts. rewrite map_map. apply map_ext_Forall.
    eapply Forall_impl; [exact Hm |]. intros [k v] (Hk & _ & _). simpl.
    change (u "=" ++ trunc v) with (61%N :: trunc v). by apply key_of_segment_app.
  - done.
  - subst parts. apply Forall_map. eapply Forall_impl; [exact Hm |].
    intros [k v] (_ & Hk & Hv). by apply has_sep_part.
Qed.

(** ** Loops *)

Lemma for_res_foldl {A S} (body : S -> A -> res S) (g : S -> A -> S) (xs : list A) :
  forall s, Forall (fun x => forall s', body s' x = Ok (g s' x)) xs ->
  for_res xs body s = Ok (foldl g s xs).
Proof.
  induction xs as [| x xs IH]; intros s Hxs; [done |].
  apply Forall_cons in Hxs as [Hx Hxs]. simpl. rewrite Hx. simpl. by apply IH.
Qed.

Lemma for_io_blocks {A} (body : A -> io unit) (xs : list A) (blocks : list (list str)) :
  Forall2 (fun x block => body x = (block, Ok tt)) xs blocks ->
  for_io xs body = (concat blocks, Ok tt).
Proof.
  induction 1 as [| x block xs blocks Hx _ IH]; [done |].
  simpl. rewrite Hx. simpl. by rewrite IH.
Qed.

Lemma map_res_ok {A B} (f : A -> res B) (xs : list A) :
  Forall (fun x => exists y, f x = Ok y) xs -> exists ys, map_res f xs = Ok ys.
Proof.
  induction 1 as [| x xs [y Hy] _ [ys IH]]; [by exists [] |].
  exists (y :: ys). simpl. by rewrite Hy, IH.
Qed.

(** ** The record locator *)

Lemma find_match_none (data : list (json F)) (task_id trial : Z) :
  (forall e, In e data -> record_matches task_id trial e = false) ->
  find_match data task_id trial = None.
Proof.
  unfold find_match. induction data as [| e data IH]; intros Hall; [done |].
  simpl. rewrite (Hall e) by (by left). apply IH. intros e' He'. apply Hall. by right.
Qed.

Lemma find_match_first (pre post : list (json F)) (e : json F) (task_id trial : Z) :
  (forall x, In x pre -> record_matches task_id trial x = false) ->
  record_matches task_id trial e = true ->
  find_match (pre ++ e :: post) task_id trial = Some e.
Proof.
  unfold find_match. induction pre as [| x pre IH]; intros Hpre He.
  - simpl. by rewrite He.
  - simpl. rewrite (Hpre x) by (by left). apply IH; [| done].
    intros x' Hx'. apply Hpre. by right.
Qed.

(** C7. For every record collection containing no record whose [task_id]
    and [trial] both equal the targets, the render operation prints
    exactly one line, the message that no record was found, and nothing
    else (no header, no instruction, no turn), and returns without
    raising. *)
Theorem C7_no_match_prints_one_error_line
    (fs : str -> load_result) (file_path : str) (data : list (json F))
    (task_id trial width : Z) (color : bool) :
  fs file_path = Loaded (JArr data) ->
  (forall e, In e data -> record_matches task_id trial e = false) ->
  print_conversation fs file_path task_id trial width color
  = ([_color (u "[error] No record found for task_id=" ++ str_of_int task_id
              ++ u ", trial=" ++ str_of_int trial ++ u ".") sError color],
     Ok tt).
Proof.
  intros Hfs Hall. unfold print_conversation.
  by rewrite Hfs, (find_match_none _ _ _ Hall).
Qed.

(** C8. For every record collection containing two or more records with
    the (task_id, trial) pair of the targets, the record locator selects
    the first matching record in collection order; entries that are not
    mappings and records that do not match, standing before it, are
    skipped without error.  What is printed is what the first match alone
    would give, whatever follows it. *)
Theorem C8_first_match_is_selected
    (fs fs1 : str -> load_result) (file_path : str)
    (pre post : list (json F)) (e : json F)
    (task_id trial width : Z) (color : bool) :
  (forall x, In x pre -> is_dict x = false \/ record_matches task_id trial x = false) ->
  record_matches task_id trial e = true ->
  fs file_path = Loaded (JArr (pre ++ e :: post)) ->
  fs1 file_path = Loaded (JArr [e]) ->
  find_match (pre ++ e :: post) task_id trial = Some e
  /\ print_conversation fs file_path task_id trial width color
     = render_record e task_id trial width color
  /\ print_conversation fs file_path task_id trial width color
     = print_conversation fs1 file_path task_id trial width color.
Proof.
  intros Hpre He Hfs Hfs1.
  assert (forall x, In x pre -> record_matches task_id trial x = false) as Hskip.
  { intros x Hx. destruct (Hpre x Hx) as [Hd | Hm]; [by destruct x | done]. }
  split; [by apply find_match_first |].
  unfold print_conversation. rewrite Hfs, Hfs1, (find_match_first _ _ _ _ _ Hskip He).
  split; [done |]. unfold find_match. simpl. by rewrite He.
Qed.

(** ** The table of calls *)

Lemma get_dict (m : list (str * json F)) (k : str) (d : json F) :
  get (JObj m) k d = Ok (default d (dict_get m k)).
Proof. reflexivity. Qed.

Lemma get_or_empty (m : list (str * json F)) (k : str) (d : json F) :
  get (py_or (JObj m) (JObj [])) k d = Ok (default d (dict_get m k)).
Proof. by destruct m. Qed.

Lemma call_function_wf (tc : json F) :
  wf_call tc = true -> call_function tc = Ok (JObj (call_fields tc)).
Proof.
  destruct tc as [| | | | | | m]; try done. unfold wf_call, call_function, call_fields.
  rewrite get_or_empty. intros [_ Hf]%andb_prop. simpl.
  destruct (dict_get m (u "function")) as [[| | | | | | f] |]; try done.
  by destruct f.
Qed.

Lemma call_compact_args_field (f : list (str * json F)) :
  opt_str (dict_get f (u "arguments")) = true ->
  call_compact_args (default (JStr []) (dict_get f (u "arguments")))
  = Ok (_compact_args (text_of (dict_get f (u "arguments"))) 200).
Proof.
  destruct (dict_get f (u "arguments")) as [[| | | | s | |] |]; try done.
  by destruct s.
Qed.

Lemma wf_call_arguments (tc : json F) :
  wf_call tc = true -> opt_str (dict_get (call_fields tc) (u "arguments")) = true.
Proof.
  destruct tc as [| | | | | | m]; try done. unfold wf_call, call_fields.
  intros [_ Hf]%andb_prop.
  destruct (dict_get m (u "function")) as [[| | | | | | f] |]; try done.
  by apply andb_prop in Hf as [_ Hf].
Qed.

(** On a tool call of the data model the inner loop body records the
    call under its identifier, or leaves the table alone when it has
    none. *)
Lemma index_call_wf (id2call : gmap (pykey F) (json F * str)) (tc : json F) :
  wf_call tc = true ->
  index_call id2call tc
  = Ok (match call_ident tc with
        | Some i => record_entry id2call (KStr i, call_info tc)
        | None => id2call
        end).
Proof.
  intros Hwf. unfold index_call.
  rewrite (call_function_wf _ Hwf). cbn [res_bind]. rewrite !get_dict. cbn [res_bind].
  rewrite (call_compact_args_field _ (wf_call_arguments _ Hwf)). cbn [res_bind].
  change (default (JStr []) (dict_get (call_fields tc) (u "name")),
          _compact_args (text_of (dict_get (call_fields tc) (u "arguments"))) 200)
    with (call_info tc).
  generalize (call_info tc). intros info.
  destruct tc as [| | | | | | m]; try done. rewrite !get_dict.
  unfold wf_call in Hwf. apply andb_prop in Hwf as [[Hid Htid]%andb_prop _].
  unfold call_ident, record_entry.
  destruct (dict_get m (u "id")) as [[| | | | [| c i] | |] |]; try done;
    destruct (dict_get m (u "tool_call_id")) as [[| | | | [| c' i'] | |] |]; try done.
Qed.

Lemma index_calls_wf (calls : list (json F)) :
  forall id2call, forallb wf_call calls = true ->
  for_res calls index_call id2call = Ok (foldl record_entry id2call (omap call_entry calls)).
Proof.
  induction calls as [| tc calls IH]; intros id2call Hwf; [done |].
  simpl in Hwf. apply andb_prop in Hwf as [Htc Hcalls].
  cbn [for_res]. rewrite (index_call_wf _ _ Htc). cbn [res_bind].
  rewrite (IH _ Hcalls). cbn [omap list_omap]. unfold call_entry at 2.
  by destruct (call_ident tc).
Qed.

Lemma index_turn_wf (id2call : gmap (pykey F) (json F * str)) (turn : json F) :
  wf_turn turn = true ->
  index_turn id2call turn = Ok (foldl record_entry id2call (turn_entries turn)).
Proof.
  destruct turn as [| | | | | | m]; try done. intros Hwf.
  unfold index_turn, turn_entries, is_assistant_turn. rewrite !get_dict. cbn [res_bind].
  destruct (eq_str (default JNull (dict_get m (u "role"))) (u "assistant")); [| done].
  unfold wf_turn in Hwf. apply andb_prop in Hwf as [_ Hcalls].
  unfold tool_calls_of.
  destruct (dict_get m (u "tool_calls")) as [[| | | | | calls |] |]; try done.
  replace (py_or (default JNull (Some (JArr calls))) (JArr [])) with (JArr calls : json F)
    by (by destruct calls).
  cbn [iter res_bind]. by apply index_calls_wf.
Qed.

Lemma foldl_flat_map {A B S} (f : S -> B -> S) (g : A -> list B) (l : list A) :
  forall s, foldl f s (flat_map g l) = foldl (fun s' x => foldl f s' (g x)) s l.
Proof.
  induction l as [| x l IH]; intros s; [done |].
  simpl. by rewrite foldl_app, IH.
Qed.

(** The two loops that fill the table, on a trajectory of the data model,
    record the entries of the spec's list one after the other. *)
Lemma build_id2call_wf (traj : list (json F)) :
  wf_traj traj = true ->
  build_id2call traj = Ok (foldl record_entry ∅ (index_entries traj)).
Proof.
  intros Hwf. unfold build_id2call, index_entries. rewrite foldl_flat_map.
  apply for_res_foldl. apply Forall_forall. intros turn Hturn id2call.
  apply index_turn_wf. unfold wf_traj in Hwf.
  rewrite forallb_forall in Hwf. apply Hwf. by apply list_elem_of_In.
Qed.

(** A later assignment to a key hides the earlier ones. *)
Lemma lookup_foldl_record_entry (entries : list (pykey F * (json F * str))) (k : pykey F) :
  forall id2call,
  foldl record_entry id2call entries !! k
  = match last_entry k entries with
    | Some v => Some v
    | None => id2call !! k
    end.
Proof.
  unfold last_entry.
  induction entries as [| [k' v'] entries IH]; intros id2call; [done |].
  cbn [foldl]. rewrite IH, filter_cons. unfold record_entry. cbn [fst snd].
  destruct (decide (k' = k)) as [-> | Hne].
  - rewrite last_cons. destruct (last (filter _ entries)); [done |].
    simpl. apply lookup_insert_eq.
  - destruct (last (filter _ entries)); [done |]. simpl. by apply lookup_insert_ne.
Qed.

Lemma foldl_record_entry_list_to_map (entries : list (pykey F * (json F * str))) :
  forall id2call,
  foldl record_entry id2call entries
  = foldr (fun e => <[e.1 := e.2]>) id2call (reverse entries).
Proof.
  induction entries as [| e entries IH]; intros id2call; [done |].
  cbn [foldl]. by rewrite IH, reverse_cons, foldr_app.
Qed.

Lemma last_entry_is_Some (entries : list (pykey F * (json F * str))) (k : pykey F) :
  is_Some (last_entry k entries) <-> k ∈ entries.*1.
Proof.
  unfold last_entry. induction entries as [| [k' v'] entries IH].
  - split; [by intros [? ?] | by intros ?%elem_of_nil].
  - rewrite filter_cons, fmap_cons, elem_of_cons. cbn [fst].
    destruct (decide (k' = k)) as [-> | Hne].
    + rewrite last_cons. split; [by left |]. intros _.
      destruct (last (filter _ entries)); by eexists.
    + rewrite IH. split; [by right |]. by intros [? | ?].
Qed.

(** C4. For every turn sequence, the CallIndex built before rendering maps
    each identifier of a tool call of an assistant turn to the (function
    name, compacted arguments) pair of the last tool call in document order
    carrying that identifier: a later duplicate overwrites an earlier one.
    Tool calls without an identifier contribute no entry, so the keys are
    exactly the identifiers that occur.  The order of the visit matters
    through this overwriting only: when no identifier occurs twice, any
    sequence with the same entries in another order gives the same
    table. *)
Theorem C4_call_index_last_write_wins (traj : list (json F)) :
  wf_traj traj = true ->
  exists id2call : gmap (pykey F) (json F * str),
    build_id2call traj = Ok id2call
    /\ (forall k, id2call !! k = last_entry k (index_entries traj))
    /\ (forall k, is_Some (id2call !! k) <->
                  exists turn tc i,
                    In turn traj /\ is_assistant_turn turn = true
                    /\ In tc (tool_calls_of turn) /\ call_ident tc = Some i
                    /\ k = KStr i)
    /\ (forall traj', wf_traj traj' = true ->
        NoDup (index_entries traj).*1 ->
        index_entries traj' ≡ₚ index_entries traj ->
        build_id2call traj' = Ok id2call).
Proof.
  intros Hwf. eexists. split; [by apply build_id2call_wf |].
  assert (forall k, foldl record_entry ∅ (index_entries traj) !! k
                    = last_entry k (index_entries traj)) as Hlookup.
  { intros k. rewrite lookup_foldl_record_entry.
    destruct (last_entry k (index_entries traj)); [done | apply lookup_empty]. }
  split; [exact Hlookup |]. split.
  - intros k. rewrite Hlookup, last_entry_is_Some, list_elem_of_fmap.
    unfold index_entries. split.
    + intros ([k' v] & -> & Hin). apply list_elem_of_In, in_flat_map in Hin.
      destruct Hin as (turn & Hturn & Hin). unfold turn_entries in Hin.
      destruct (is_assistant_turn turn) eqn:Hrole; [| done].
      apply list_elem_of_In, list_elem_of_omap in Hin as (tc & Htc & Hentry).
      unfold call_entry in Hentry. destruct (call_ident tc) as [i |] eqn:Hi; [| done].
      injection Hentry as <- <-. exists turn, tc, i.
      repeat split; try done. by apply list_elem_of_In.
    + intros (turn & tc & i & Hturn & Hrole & Htc & Hi & ->).
      exists (KStr i, call_info tc). split; [done |].
      apply list_elem_of_In, in_flat_map. exists turn. split; [done |].
      unfold turn_entries. rewrite Hrole. apply list_elem_of_In, list_elem_of_omap.
      exists tc. split; [by apply list_elem_of_In |]. unfold call_entry. by rewrite Hi.
  - intros traj' Hwf' Hnodup Hperm. rewrite (build_id2call_wf _ Hwf'). f_equal.
    rewrite !foldl_record_entry_list_to_map.
    apply (list_to_map_proper (M := gmap (pykey F))).
    + rewrite fmap_reverse, reverse_Permutation. by rewrite Hperm.
    + by rewrite !reverse_Permutation.
Qed.

(** ** One turn *)

Lemma dict_get_cons (k k' : str) (v : json F) (m : list (str * json F)) :
  dict_get ((k, v) :: m) k' = if str_eqb k k' then Some v else dict_get m k'.
Proof. reflexivity. Qed.

Lemma wrap_value_str (s : str) (width : Z) :
  wrap_value (JStr s : json F) width = Ok (JStr (_wrap s width)).
Proof. unfold wrap_value, _wrap. by destruct (width <=? 0). Qed.

Lemma print_body_line (text : str) (color : bool) :
  print_body text color = ([body_line text color], Ok tt).
Proof.
  unfold print_body, body_line. fold (blank text).
  destruct (strip text) eqn:Hs.
  - apply strip_nil_iff in Hs. by rewrite Hs, indent_placeholder.
  - destruct (blank text) eqn:Hb; [| done].
    apply strip_nil_iff in Hb. congruence.
Qed.

Lemma body_line_not_blank (text : str) (color : bool) :
  blank (body_line text color) = false.
Proof.
  unfold body_line. fold (blank text). destruct (blank text) eqn:Hb.
  - by destruct color.
  - by apply indent_not_blank.
Qed.

(** A turn whose tag and message are found, the message being a string,
    prints its two lines. *)
Lemma render_turn_str (id2call : gmap (pykey F) (json F * str)) (width : Z)
    (color : bool) (turn : json F) (role_tag s : str) :
  role_tag_and_msg id2call turn color = Ok (role_tag, JStr s) ->
  render_turn id2call width color turn
  = ([role_tag ++ u " "; body_line (_wrap s width) color], Ok tt).
Proof.
  intros Htag. unfold render_turn. rewrite Htag. unfold lift. cbn [io_bind].
  rewrite wrap_value_str. cbn [io_bind print as_str app].
  by rewrite print_body_line.
Qed.

(** A turn that is printed to the end printed a tag line and a body. *)
Lemma render_turn_inv (id2call : gmap (pykey F) (json F * str)) (width : Z)
    (color : bool) (turn : json F) (out : list str) :
  render_turn id2call width color turn = (out, Ok tt) ->
  exists role_tag msg wrapped,
    role_tag_and_msg id2call turn color = Ok (role_tag, msg)
    /\ wrap_value msg width = Ok (JStr wrapped)
    /\ out = [role_tag ++ u " "; body_line wrapped color].
Proof.
  unfold render_turn, lift.
  destruct (role_tag_and_msg id2call turn color) as [[role_tag msg] | e]; [| done].
  cbn [io_bind]. destruct (wrap_value msg width) as [w | e] eqn:Hw; [| done].
  cbn [io_bind print]. destruct w as [| | | | wrapped | |]; try done.
  cbn [as_str io_bind app]. rewrite print_body_line. intros [= <-].
  by exists role_tag, msg, wrapped.
Qed.

Ltac eval_keys :=
  repeat match goal with
         | |- context [str_eqb (u ?a) (u ?b)] =>
             let r := eval vm_compute in (str_eqb (u a) (u b)) in
             change (str_eqb (u a) (u b)) with r
         end.

Lemma eq_str_true (v : json F) (s : str) : eq_str v s = true -> v = JStr s.
Proof.
  destruct v as [| | | | t | |]; try done. unfold eq_str, str_eqb.
  intros Ht. apply bool_decide_eq_true in Ht. by subst.
Qed.

(** A turn without a [role] key and the same turn with the role
    [assistant] written out get the same tag and message. *)
Lemma role_tag_and_msg_default_role (id2call : gmap (pykey F) (json F * str))
    (m : list (str * json F)) (color : bool) :
  dict_get m (u "role") = None ->
  role_tag_and_msg id2call (JObj m) color
  = role_tag_and_msg id2call (JObj ((u "role", JStr (u "assistant")) :: m)) color.
Proof.
  intros Hrole. unfold role_tag_and_msg.
  rewrite !get_dict, !dict_get_cons, Hrole. by eval_keys.
Qed.

(** C10. A turn whose mapping has no "role" key at all is classified and
    formatted as an assistant turn: what it prints is what the same turn
    with the role "assistant" written out prints, its label is
    [assistant], and if its content is null its body is put together from
    its tool calls, or is empty when it has none. *)
Theorem C10_turn_without_role_is_assistant
    (id2call : gmap (pykey F) (json F * str)) (m : list (str * json F))
    (width : Z) (color : bool) :
  dict_get m (u "role") = None ->
  render_turn id2call width color (JObj m)
  = render_turn id2call width color (JObj ((u "role", JStr (u "assistant")) :: m))
  /\ (forall role_tag msg,
      role_tag_and_msg id2call (JObj m) color = Ok (role_tag, msg) ->
      role_tag = _color (u "[assistant]") sAssistant color)
  /\ (forall calls parts,
      is_none (default JNull (dict_get m (u "content"))) = true ->
      dict_get m (u "tool_calls") = Some (JArr calls) -> calls <> [] ->
      map_res call_summary calls = Ok parts ->
      role_tag_and_msg id2call (JObj m) color
      = Ok (_color (u "[assistant]") sAssistant color,
            JStr (u "→ tool call(s): " ++ join (u "; ") parts)))
  /\ (is_none (default JNull (dict_get m (u "content"))) = true ->
      truthy (default JNull (dict_get m (u "tool_calls"))) = false ->
      role_tag_and_msg id2call (JObj m) color
      = Ok (_color (u "[assistant]") sAssistant color, JStr [])).
Proof.
  intros Hrole. split.
  { unfold render_turn. by rewrite role_tag_and_msg_default_role. }
  unfold role_tag_and_msg. rewrite !get_dict, Hrole. cbn [res_bind default].
  change (eq_str (JStr (u "assistant")) (u "assistant")) with true. cbv iota.
  split; [| split].
  - intros role_tag msg.
    destruct (is_none (default JNull (dict_get m (u "content")))); [| by intros [= <- _]].
    destruct (truthy _); [| by intros [= <- _]].
    destruct (iter _) as [calls |]; [| done]. cbn [res_bind].
    destruct (map_res call_summary calls); [| done]. by intros [= <- _].
  - intros calls parts -> -> Hcalls Hparts. cbn [default].
    replace (py_or (JArr calls) (JArr [])) with (JArr calls : json F)
      by (by destruct calls).
    replace (truthy (JArr calls)) with true by (by destruct calls).
    cbn [iter res_bind]. by rewrite Hparts.
  - intros -> Hcalls. unfold py_or. by rewrite Hcalls.
Qed.

(** The tag of a tool turn whose [name] and [tool_call_id] are strings
    when present. *)
Lemma tool_role_tag_label (id2call : gmap (pykey F) (json F * str))
    (name_field id_field : option (json F)) (color : bool) :
  opt_str name_field = true -> opt_str id_field = true ->
  let hit := match text_of id_field with
             | [] => None
             | i => id2call !! KStr i
             end in
  (forall v, hit = Some v -> opt_str (Some v.1) = true) ->
  tool_role_tag id2call (default JNull name_field) (default JNull id_field) color
  = Ok (_color (tool_label (text_of name_field) (text_of (fst <$> hit))
                  (default [] (snd <$> hit))) sTool color).
Proof.
  intros Hname Hid hit Hhit. unfold tool_role_tag.
  assert ((if truthy (default JNull id_field)
           then let* k := to_key (default JNull id_field) in
                Ok (default (JStr [], []) (id2call !! k))
           else Ok (JStr [], []))
          = Ok (default (JStr [] : json F, []) hit)) as ->.
  { subst hit. by destruct id_field as [[| | | | [| c i] | |] |]. }
  cbn [res_bind]. destruct hit as [[fname comp] |].
  - specialize (Hhit _ eq_refl). cbn [default fmap option_fmap option_map fst snd text_of].
    destruct fname as [| | | | [| c f] | |]; try done;
      destruct name_field as [[| | | | [| c' n] | |] |]; try done;
      by destruct comp.
  - cbn [default fmap option_fmap option_map text_of].
    by destruct name_field as [[| | | | [| c' n] | |] |].
Qed.

(** C1, amended. For every tool-role turn rendered, the label name is the
    turn's own name field when that is a non-empty string; only when the
    turn has no name of its own is it the function name resolved from the
    CallIndex by the turn's tool_call_id; when neither is available the
    label is the bare [tool] marker.  The compacted arguments are those of
    the CallIndex entry in every case: with a name and non-empty arguments
    the label is [tool:NAME(ARGS)], with a name alone [tool:NAME]. *)
Theorem C1_tool_label_prefers_own_name
    (id2call : gmap (pykey F) (json F * str)) (m : list (str * json F))
    (color : bool) :
  eq_str (default JNull (dict_get m (u "role"))) (u "tool") = true ->
  opt_str (dict_get m (u "name")) = true ->
  opt_str (dict_get m (u "tool_call_id")) = true ->
  let own := text_of (dict_get m (u "name")) in
  let hit := match text_of (dict_get m (u "tool_call_id")) with
             | [] => None
             | i => id2call !! KStr i
             end in
  (forall v, hit = Some v -> opt_str (Some v.1) = true) ->
  role_tag_and_msg id2call (JObj m) color
  = Ok (_color (tool_label own (text_of (fst <$> hit)) (default [] (snd <$> hit)))
          sTool color,
        py_or (default JNull (dict_get m (u "content"))) (JStr [])).
Proof.
  intros Hrole Hname Hid own hit Hhit. unfold role_tag_and_msg.
  rewrite !get_dict. cbn [res_bind].
  destruct (dict_get m (u "role")) as [role |] eqn:Hr; [| done].
  cbn [default] in Hrole |- *. apply eq_str_true in Hrole as ->.
  change (eq_str (JStr (u "tool")) (u "assistant")) with false.
  change (eq_str (JStr (u "tool")) (u "user")) with false.
  change (eq_str (JStr (u "tool")) (u "tool")) with true. cbv iota.
  by rewrite (tool_role_tag_label id2call _ _ color Hname Hid Hhit).
Qed.

(** ** The walk over the turns *)

Lemma call_summary_wf (tc : json F) :
  wf_call tc = true -> exists part, call_summary tc = Ok part.
Proof.
  intros Hwf. unfold call_summary.
  rewrite (call_function_wf _ Hwf). cbn [res_bind]. rewrite !get_dict. cbn [res_bind].
  rewrite (call_compact_args_field _ (wf_call_arguments _ Hwf)). cbn [res_bind].
  by eexists.
Qed.

Lemma py_or_content (field : option (json F)) :
  opt_str field = true ->
  py_or (default JNull field) (JStr []) = JStr (text_of field).
Proof. by destruct field as [[| | | | [| c s] | |] |]. Qed.

(** On a turn of the data model the chain of tests ends with a tag and a
    message that is a string. *)
Lemma role_tag_and_msg_wf (id2call : gmap (pykey F) (json F * str))
    (turn : json F) (color : bool) :
  wf_turn turn = true ->
  exists role_tag s, role_tag_and_msg id2call turn color = Ok (role_tag, JStr s).
Proof.
  destruct turn as [| | | | | | m]; try done. unfold wf_turn.
  intros [[[Hcontent Hname]%andb_prop Hid]%andb_prop Hcalls]%andb_prop.
  unfold role_tag_and_msg. rewrite !get_dict. cbn [res_bind].
  rewrite (py_or_content _ Hcontent).
  destruct (eq_str _ (u "assistant")).
  { destruct (dict_get m (u "content")) as [[| | | | s | |] |]; try done;
      cbn [default is_none]; try by eexists _, _.
    all: destruct (dict_get m (u "tool_calls")) as [[| | | | | calls |] |];
      try done; try by eexists _, _.
    all: destruct calls as [| tc calls]; [by eexists _, _ |].
    all: change (py_or (default JNull (Some (JArr (tc :: calls)))) (JArr []))
           with (JArr (tc :: calls) : json F).
    all: change (truthy (JArr (tc :: calls) : json F)) with true.
    all: cbn [iter res_bind].
    all: destruct (map_res_ok call_summary (tc :: calls)) as [parts ->];
      [| by eexists _, _].
    all: apply Forall_forall; intros tc' Htc'; apply call_summary_wf.
    all: rewrite forallb_forall in Hcalls; apply Hcalls; by apply list_elem_of_In. }
  destruct (eq_str _ (u "user")); [by eexists _, _ |].
  destruct (eq_str _ (u "tool")).
  { assert (exists tag, tool_role_tag id2call (default JNull (dict_get m (u "name")))
                          (default JNull (dict_get m (u "tool_call_id"))) color = Ok tag)
      as [tag ->]; [| by eexists _, _].
    unfold tool_role_tag.
    destruct (dict_get m (u "tool_call_id")) as [[| | | | [| c i] | |] |]; try done;
      cbn [default truthy to_key res_bind negb bool_decide decide_rel];
      try by eexists.
    simpl. destruct (default _ _). by eexists. }
  destruct (eq_str _ (u "system")); by eexists _, _.
Qed.

Lemma render_turn_wf (id2call : gmap (pykey F) (json F * str)) (width : Z)
    (color : bool) (turn : json F) :
  wf_turn turn = true ->
  exists label body, render_turn id2call width color turn = ([label; body], Ok tt).
Proof.
  intros Hwf. destruct (role_tag_and_msg_wf id2call turn color Hwf) as (tag & s & Htag).
  eexists _, _. by apply render_turn_str.
Qed.

(** C9. For every rendered turn, the printed body is never blank: if the
    wrapped body text is empty or whitespace only, the fixed placeholder
    "(no content)", indented by the two-space margin, is printed in its
    place; otherwise the wrapped body is printed, indented by two spaces.
    A turn of the data model is always rendered to the end. *)
Theorem C9_body_is_never_blank (id2call : gmap (pykey F) (json F * str))
    (width : Z) (color : bool) (turn : json F) :
  (wf_turn turn = true ->
   exists out, render_turn id2call width color turn = (out, Ok tt))
  /\ (forall out,
      render_turn id2call width color turn = (out, Ok tt) ->
      exists role_tag msg wrapped body,
        role_tag_and_msg id2call turn color = Ok (role_tag, msg)
        /\ wrap_value msg width = Ok (JStr wrapped)
        /\ out = [role_tag ++ u " "; body]
        /\ (strip wrapped = [] ->
            body = u "  " ++ _color (u "(no content)") sDim color)
        /\ (strip wrapped <> [] -> body = indent wrapped (u "  "))
        /\ strip body <> []).
Proof.
  split.
  { intros Hwf. destruct (render_turn_wf id2call width color turn Hwf)
      as (label & body & Hrender). by eexists. }
  intros out (role_tag & msg & wrapped & Htag & Hwrap & ->)%render_turn_inv.
  exists role_tag, msg, wrapped, (body_line wrapped color).
  repeat split; try done.
  - intros Hb%strip_nil_iff. unfold body_line. fold (blank wrapped). by rewrite Hb.
  - intros Hb. unfold body_line. fold (blank wrapped).
    destruct (blank wrapped) eqn:Hblank; [| done].
    by apply strip_nil_iff in Hblank.
  - intros Hb%strip_nil_iff. by rewrite body_line_not_blank in Hb.
Qed.

Lemma first_user_Some (traj : list (json F)) (i : nat) :
  first_user traj = Some i ->
  (exists turn, traj !! i = Some turn /\ is_user_turn turn = true)
  /\ (forall j turn, (j < i)%nat -> traj !! j = Some turn -> is_user_turn turn = false).
Proof.
  revert i. induction traj as [| t traj IH]; intros i; [done |].
  cbn [first_user]. destruct (is_user_turn t) eqn:Ht.
  - intros [= <-]. split; [by exists t | intros; lia].
  - destruct (first_user traj) as [i' |]; [| done]. intros [= <-].
    destruct (IH i' eq_refl) as [Hhit Hbefore]. split; [done |].
    intros [| j] turn Hj; [by intros [= <-] |]. apply Hbefore. lia.
Qed.

Lemma first_user_None (traj : list (json F)) :
  first_user traj = None -> forall turn, In turn traj -> is_user_turn turn = false.
Proof.
  induction traj as [| t traj IH]; [done |]. cbn [first_user].
  destruct (is_user_turn t) eqn:Ht; [done |].
  destruct (first_user traj); [done |]. intros _ turn [<- | Hin]; auto.
Qed.

(** C2, amended. For every turn sequence, rendering of turn blocks starts
    at the first turn whose role is "user" (scanning from the beginning)
    when there is one, and no turn before it is rendered; when no turn
    has the role "user", rendering starts at the first turn of the
    sequence.  Each turn from the starting point onward produces exactly
    one label line and one body block. *)
Theorem C2_rendering_starts_at_first_user_if_any
    (traj : list (json F)) (width : Z) (color : bool) :
  wf_traj traj = true ->
  exists (id2call : gmap (pykey F) (json F * str)) (blocks : list (list str)),
    build_id2call traj = Ok id2call
    /\ render_trajectory (JArr traj) width color = (concat blocks, Ok tt)
    /\ Forall2 (fun turn block =>
                  render_turn id2call width color turn = (block, Ok tt)
                  /\ length block = 2%nat)
               (drop (start_idx traj) traj) blocks
    /\ (forall i, first_user traj = Some i ->
        start_idx traj = i
        /\ (exists turn, traj !! i = Some turn /\ is_user_turn turn = true)
        /\ (forall j turn, (j < i)%nat -> traj !! j = Some turn ->
            is_user_turn turn = false))
    /\ (first_user traj = None ->
        start_idx traj = 0%nat
        /\ forall turn, In turn traj -> is_user_turn turn = false).
Proof.
  intros Hwf.
  assert (exists blocks,
             Forall2 (fun turn block =>
                        render_turn (foldl record_entry ∅ (index_entries traj))
                          width color turn = (block, Ok tt)
                        /\ length block = 2%nat)
                     (drop (start_idx traj) traj) blocks) as [blocks Hblocks].
  { assert (Forall (fun turn => wf_turn turn = true) (drop (start_idx traj) traj)) as Hrest.
    { apply Forall_drop, Forall_forall. intros turn Hturn.
      unfold wf_traj in Hwf. rewrite forallb_forall in Hwf.
      apply Hwf. by apply list_elem_of_In. }
    induction Hrest as [| turn rest Hturn _ [blocks IH]]; [by exists [] |].
    destruct (render_turn_wf (foldl record_entry ∅ (index_entries traj)) width color
                turn Hturn) as (label & body & Hrender).
    exists ([label; body] :: blocks). by constructor. }
  exists (foldl record_entry ∅ (index_entries traj)), blocks.
  split; [by apply build_id2call_wf |]. split; [| split; [done |] ].
  - unfold render_trajectory, lift. cbn [iter io_bind].
    rewrite (build_id2call_wf _ Hwf). cbn [io_bind app].
    rewrite (for_io_blocks _ _ blocks); [done |].
    eapply Forall2_impl; [exact Hblocks |]. by intros turn block [? _].
  - split.
    + intros i Hi. unfold start_idx. rewrite Hi. split; [done |].
      by apply first_user_Some.
    + intros Hnone. unfold start_idx. rewrite Hnone. split; [done |].
      by apply first_user_None.
Qed.

End Proofs.

(** ** The model at work

    The statements above at the spec's scenario and at inputs on which
    the spec and the code part ways, with the reference library. *)

Import Samples.

(** The spec's scenario: three blocks under the header. *)
Example scenario_renders_three_blocks :
  print_conversation (fun _ => Loaded (JArr [record 1 0 traj])) (u "results.json")
    1 0 100 false
  = ([u "Conversation — task_id=1, trial=0";
      str_repeat (u "─") 33;
      u "[user] "; u "  hi";
      u "[assistant] "; u "  → tool call(s): lookup(x=1)";
      u "[tool:lookup(x=1)] "; u "  result"], Ok tt).
Proof. vm_compute. reflexivity. Qed.

(** The two loops disagree on a turn without a [role] key: the rendering
    loop takes it for an assistant turn, the loop that fills the table
    does not, so the calls of such a turn are not in the table. *)
Example turn_without_role_is_not_indexed :
  build_id2call [JObj no_role] = Ok (∅ : gmap (pykey Empty_set) (val * str))
  /\ index_entries [JObj no_role] = [].
Proof. by vm_compute. Qed.

(** Outside the data model: a tool call that is [null] passes the reading
    of its function and then has no [get]. *)
Example null_tool_call_raises :
  build_id2call [assistant_calls [JNull]] = Raise AttributeError
  /\ render_trajectory (JArr [user_hi; assistant_calls [JNull]]) 100 false
     = ([], Raise AttributeError).
Proof. by vm_compute. Qed.

(** C1, amended, at a tool turn named [search] that answers the call
    [c1] of the function [lookup]. *)
Lemma C1_witness :
  (eq_str (default JNull (dict_get tool_named (u "role"))) (u "tool") = true
   /\ opt_str (dict_get tool_named (u "name")) = true
   /\ opt_str (dict_get tool_named (u "tool_call_id")) = true)
  /\ role_tag_and_msg c1_index (JObj tool_named) false
     = Ok (u "[tool:search(x=1)]", txt "result").
Proof.
  split; [by vm_compute |].
  rewrite (C1_tool_label_prefers_own_name c1_index tool_named false);
    [by vm_compute | by vm_compute | by vm_compute | by vm_compute |].
  intros v Hv. vm_compute in Hv. injection Hv as <-. reflexivity.
Defined.

(** C1 as stated fails: the CallIndex resolves [c1] to the function
    [lookup], the turn's own name is [search], and the label shows
    [search]. *)
Lemma C1_counterexample :
  build_id2call traj_named = Ok c1_index
  /\ c1_index !! KStr (u "c1") = Some (txt "lookup", u "x=1")
  /\ render_turn c1_index 100 false (JObj tool_named)
     = ([u "[tool:search(x=1)] "; u "  result"], Ok tt)
  /\ render_turn c1_index 100 false (JObj tool_named)
     <> ([u "[tool:lookup(x=1)] "; u "  result"], Ok tt).
Proof. by vm_compute. Qed.

(** C2, amended, at the scenario behind a system prompt and a greeting:
    the first user turn is the third of five turns, the two turns before
    it are not rendered, and the three turns from it on give one block
    each. *)
Lemma C2_witness :
  wf_traj traj_after_preamble = true
  /\ first_user traj_after_preamble = Some 2%nat
  /\ (exists blocks,
        render_trajectory (JArr traj_after_preamble) 100 false = (concat blocks, Ok tt)
        /\ length blocks = 3%nat
        /\ Forall (fun block => length block = 2%nat) blocks)
  /\ (forall j turn, (j < 2)%nat -> traj_after_preamble !! j = Some turn ->
       is_user_turn turn = false)
  /\ render_trajectory (JArr traj_after_preamble) 100 false
     = ([u "[user] "; u "  hi";
         u "[assistant] "; u "  → tool call(s): lookup(x=1)";
         u "[tool:lookup(x=1)] "; u "  result"], Ok tt).
Proof.
  assert (first_user traj_after_preamble = Some 2%nat) as Hfirst by (by vm_compute).
  split; [by vm_compute |]. split; [exact Hfirst |].
  destruct (C2_rendering_starts_at_first_user_if_any traj_after_preamble 100 false)
    as (id2call & blocks & _ & Hout & Hblocks & Hsome & _); [by vm_compute |].
  destruct (Hsome 2%nat Hfirst) as (Hstart & _ & Hbefore).
  rewrite Hstart in Hblocks.
  split; [| split; [exact Hbefore | by vm_compute]].
  exists blocks. split; [exact Hout |]. split.
  - apply Forall2_length in Hblocks. by rewrite <- Hblocks.
  - clear Hout. induction Hblocks as [| turn block rest blocks [_ Hlen] _ IH];
      by constructor.
Defined.

(** C2 as stated fails: no turn of the sequence has the role "user", and
    yet its turn is rendered, so rendering did not start at a user
    turn. *)
Lemma C2_counterexample :
  first_user traj_no_user = None
  /\ Forall (fun turn => is_user_turn turn = false) traj_no_user
  /\ render_trajectory (JArr traj_no_user) 100 false
     = ([u "[assistant] "; u "  hello"], Ok tt).
Proof. vm_compute. repeat constructor. Qed.

(** C3, amended, at a mapping of two plain keys. *)
Lemma C3_witness :
  (json_loads (jq "{'x':1, 'name': 'Bob'}")
   = Some (JObj [(u "x", JInt 1); (u "name", txt "Bob")] : val))
  /\ reparse_keys (_compact_args (jq "{'x':1, 'name': 'Bob'}") 200) = [u "x"; u "name"].
Proof.
  split; [by vm_compute |].
  apply (C3_keys_read_back (jq "{'x':1, 'name': 'Bob'}") 200
           [(u "x", JInt 1); (u "name", txt "Bob")]);
    [by vm_compute | by vm_compute | | by vm_compute].
  repeat constructor; try (by vm_compute);
    intros Hin; vm_compute in Hin; intuition discriminate.
Defined.

(** C3 as stated fails, in three ways.  The mapping with the one key [a]
    and the value ["x, b=1"] has the compact form [a="x, b=1"], which
    reads back as the keys [a] and [b]; the key [a=b] reads back as [a];
    and of four keys with values of 80 characters the overall cut leaves
    three. *)
Lemma C3_counterexample :
  (json_loads (jq "{'a': 'x, b=1'}") = Some (JObj [(u "a", txt "x, b=1")] : val)
   /\ _compact_args (jq "{'a': 'x, b=1'}") 200 = jq "a='x, b=1'"
   /\ reparse_keys (_compact_args (jq "{'a': 'x, b=1'}") 200) = [u "a"; u "b"]
   /\ reparse_keys (_compact_args (jq "{'a': 'x, b=1'}") 200)
      <> map fst [(u "a", txt "x, b=1")])
  /\ (json_loads (jq "{'a=b': 1}") = Some (JObj [(u "a=b", JInt 1)] : val)
      /\ _compact_args (jq "{'a=b': 1}") 200 = u "a=b=1"
      /\ reparse_keys (_compact_args (jq "{'a=b': 1}") 200) = [u "a"])
  /\ (json_loads four_long_values
      = Some (JObj [(u "k1", JStr (str_repeat (u "a") 78));
                    (u "k2", JStr (str_repeat (u "b") 78));
                    (u "k3", JStr (str_repeat (u "c") 78));
                    (u "k4", JStr (str_repeat (u "d") 78))] : val)
      /\ len (_compact_args four_long_values 200) = 200
      /\ reparse_keys (_compact_args four_long_values 200) = [u "k1"; u "k2"; u "k3"]).
Proof. by vm_compute. Qed.

(** C4 at a turn whose calls use the identifier [c1] twice: the second
    call is the one the table keeps. *)
Lemma C4_witness :
  wf_traj traj_dup = true
  /\ exists id2call,
      build_id2call traj_dup = Ok id2call
      /\ id2call !! KStr (u "c1") = Some (txt "second", u "[1, 2]")
      /\ id2call !! KStr (u "c2") = Some (txt "f", []).
Proof.
  split; [by vm_compute |].
  destruct (C4_call_index_last_write_wins traj_dup)
    as (id2call & Hbuild & Hlookup & _); [by vm_compute |].
  exists id2call. split; [exact Hbuild |]. rewrite !Hlookup. by vm_compute.
Defined.

(** C5 at 200 and 201 characters that do not parse, and at values whose
    encodings have 80 and 81 characters. *)
Lemma C5_witness :
  (json_loads (str_repeat (u "x") 200) = (None : option val)
   /\ json_loads (str_repeat (u "x") 201) = (None : option val)
   /\ json_loads (jq "{'k': '" ++ str_repeat (u "a") 78 ++ jq "'}")
      = Some (JObj [(u "k", JStr (str_repeat (u "a") 78))] : val)
   /\ json_loads (jq "{'k': '" ++ str_repeat (u "a") 79 ++ jq "'}")
      = Some (JObj [(u "k", JStr (str_repeat (u "a") 79))] : val))
  /\ _compact_args (str_repeat (u "x") 200) 200 = str_repeat (u "x") 200
  /\ _compact_args (str_repeat (u "x") 201) 200 = str_repeat (u "x") 199 ++ u "…"
  /\ _compact_args (jq "{'k': '" ++ str_repeat (u "a") 78 ++ jq "'}") 200
     = jq "k='" ++ str_repeat (u "a") 78 ++ jq "'"
  /\ _compact_args (jq "{'k': '" ++ str_repeat (u "a") 79 ++ jq "'}") 200
     = jq "k='" ++ str_repeat (u "a") 78 ++ u "…".
Proof.
  split; [by vm_compute |].
  destruct (C5_truncation_boundaries (str_repeat (u "x") 200)
              (jq "{'k': '" ++ str_repeat (u "a") 78 ++ jq "'}") 200
              [(u "k", JStr (str_repeat (u "a") 78))])
    as (Hraw & _ & H80 & _ & Hout); [lia | by vm_compute | by vm_compute | by vm_compute |].
  destruct (C5_truncation_boundaries (str_repeat (u "x") 201)
              (jq "{'k': '" ++ str_repeat (u "a") 79 ++ jq "'}") 200
              [(u "k", JStr (str_repeat (u "a") 79))])
    as (_ & Hraw' & _ & H81 & Hout'); [lia | by vm_compute | by vm_compute | by vm_compute |].
  split; [rewrite Hraw; by vm_compute |].
  split; [rewrite Hraw'; by vm_compute |].
  split.
  - rewrite Hout by (by vm_compute). cbn [map fst snd join].
    rewrite H80 by (by vm_compute). by vm_compute.
  - rewrite Hout' by (by vm_compute). cbn [map fst snd join].
    rewrite H81 by (by vm_compute). by vm_compute.
Defined.


(** C7 at the scenario's collection and a task that is not in it. *)
Lemma C7_witness :
  (forall e, In e [record 1 0 traj] -> record_matches 2 0 e = false)
  /\ print_conversation (fun _ => Loaded (JArr [record 1 0 traj])) (u "results.json")
       2 0 100 false
     = ([u "[error] No record found for task_id=2, trial=0."], Ok tt).
Proof.
  assert (forall e, In e [record 1 0 traj] -> record_matches 2 0 e = false) as Hnone.
  { intros e [<- | []]. by vm_compute. }
  split; [exact Hnone |].
  by rewrite (C7_no_match_prints_one_error_line _ (u "results.json")
                [record 1 0 traj] 2 0 100 false eq_refl Hnone).
Defined.

(** C8 at a collection where an entry that is no mapping and a record of
    another task stand before two records of task 1, trial 0. *)
Lemma C8_witness :
  (forall x, In x before -> is_dict x = false \/ record_matches 1 0 x = false)
  /\ record_matches 1 0 (record 1 0 traj) = true
  /\ find_match (before ++ record 1 0 traj :: after) 1 0 = Some (record 1 0 traj)
  /\ print_conversation
       (fun _ => Loaded (JArr (before ++ record 1 0 traj :: after))) (u "results.json")
       1 0 100 false
     = print_conversation (fun _ => Loaded (JArr [record 1 0 traj])) (u "results.json")
         1 0 100 false.
Proof.
  assert (forall x, In x before -> is_dict x = false \/ record_matches 1 0 x = false)
    as Hbefore.
  { intros x [<- | [<- | []]]; [by left | right; by vm_compute]. }
  assert (record_matches 1 0 (record 1 0 traj) = true) as Hhit by (by vm_compute).
  split; [exact Hbefore |]. split; [exact Hhit |].
  destruct (C8_first_match_is_selected
              (fun _ => Loaded (JArr (before ++ record 1 0 traj :: after)))
              (fun _ => Loaded (JArr [record 1 0 traj]))
              (u "results.json") before after (record 1 0 traj) 1 0 100 false
              Hbefore Hhit eq_refl eq_refl) as (Hfind & _ & Hsame).
  by split.
Defined.

(** C9 at a user turn whose content is three blanks, wrapping off. *)
Lemma C9_witness :
  wf_turn (JObj [(u "role", txt "user"); (u "content", txt "   ")]) = true
  /\ render_turn (∅ : gmap (pykey Empty_set) (val * str)) 0 false
       (JObj [(u "role", txt "user"); (u "content", txt "   ")])
     = ([u "[user] "; u "  (no content)"], Ok tt)
  /\ strip (u "  (no content)") <> [].
Proof.
  assert (render_turn (∅ : gmap (pykey Empty_set) (val * str)) 0 false
            (JObj [(u "role", txt "user"); (u "content", txt "   ")])
          = ([u "[user] "; u "  (no content)"], Ok tt)) as Hrender by (by vm_compute).
  split; [by vm_compute |]. split; [exact Hrender |].
  destruct (C9_body_is_never_blank (∅ : gmap (pykey Empty_set) (val * str)) 0 false
              (JObj [(u "role", txt "user"); (u "content", txt "   ")]))
    as [_ Hbody].
  destruct (Hbody _ Hrender)
    as (role_tag & msg & wrapped & body & _ & _ & Hout & _ & _ & Hblank).
  injection Hout as _ <-. exact Hblank.
Defined.

(** C10 at a turn that has a tool call and neither role nor content. *)
Lemma C10_witness :
  dict_get no_role (u "role") = None
  /\ render_turn (∅ : gmap (pykey Empty_set) (val * str)) 100 false (JObj no_role)
     = ([u "[assistant] "; u "  → tool call(s): lookup(x=1)"], Ok tt).
Proof.
  split; [by vm_compute |].
  destruct (C10_turn_without_role_is_assistant
              (∅ : gmap (pykey Empty_set) (val * str)) no_role 100 false)
    as (Hsame & _); [by vm_compute |].
  rewrite Hsame. by vm_compute.
Defined.

(** * Further properties of the code *)

Section More.

Context {F : Type} `{Countable F} `{PyLib F}.

Local Open Scope res_scope.

(** ** The length of the compact form *)

Lemma len_cut (out : str) (max_len : Z) :
  1 <= max_len ->
  len (if len out <=? max_len then out else slice_to out (max_len - 1) ++ u "…")
  <= max_len.
Proof.
  intros Hmax. destruct (Z.leb_spec (len out) max_len) as [Hle | Hgt]; [done |].
  rewrite len_app, len_slice_to by lia. vm_compute (len (u "…")). lia.
Qed.

Lemma len_trunc (v : json F) : len (trunc v) <= 80.
Proof.
  unfold trunc. destruct (Z.leb_spec (len (json_dumps v)) 80) as [Hle | Hgt]; [done |].
  rewrite len_app, len_slice_to by lia. vm_compute (len (u "…")). lia.
Qed.

(** X1. Whatever the argument string is, parsable or not, mapping or
    not, the compact form has at most [max_len] characters, for every
    [max_len] from 1 on. *)
Theorem compact_args_within_max_len (arg_str : str) (max_len : Z) :
  1 <= max_len -> len (_compact_args arg_str max_len) <= max_len.
Proof.
  intros Hmax. unfold _compact_args. destruct arg_str as [| c rest].
  - unfold len. simpl. lia.
  - destruct (json_loads (c :: rest)) as [args |]; by apply len_cut.
Qed.

(** X2. A string that parses to something other than a mapping (a
    number, a string, a list, [null]) is rendered as the JSON encoding
    of that value cut to 80 characters; from a maximum length of 80 on,
    the overall cut never touches it. *)
Theorem compact_args_of_non_mapping (arg_str : str) (max_len : Z) (v : json F) :
  arg_str <> [] -> json_loads arg_str = Some v -> is_dict v = false ->
  80 <= max_len ->
  _compact_args arg_str max_len = trunc v
  /\ len (_compact_args arg_str max_len) <= 80
  /\ (len (json_dumps v) <= 80 -> _compact_args arg_str max_len = json_dumps v).
Proof.
  intros Hne Hload Hv Hmax.
  assert (_compact_args arg_str max_len = trunc v) as ->.
  { unfold _compact_args. rewrite Hload. destruct arg_str; [done |].
    pose proof (len_trunc v) as Hlen.
    assert ((if len (trunc v) <=? max_len then trunc v
             else slice_to (trunc v) (max_len - 1) ++ u "…") = trunc v) as Hfit.
    { by destruct (Z.leb_spec (len (trunc v)) max_len); [| lia]. }
    by destruct v. }
  split; [done |]. split; [apply len_trunc |].
  intros Hlen. unfold trunc. by destruct (Z.leb_spec (len (json_dumps v)) 80); [| lia].
Qed.

(** ** No line feed in the compact form *)

Lemma utf8_decode_ascii (bs : list N) :
  Forall (fun b => (b < 128)%N) bs -> utf8_decode bs = bs.
Proof.
  induction 1 as [| b bs Hb _ IH]; [done |]. simpl.
  destruct (N.ltb_spec b 128); [by rewrite IH | lia].
Qed.

Lemma string_of_uint_bytes (d : Decimal.uint) :
  Forall (fun b => (48 <= b <= 57)%N)
    (map N_of_ascii (list_ascii_of_string (NilEmpty.string_of_uint d))).
Proof.
  induction d; simpl; constructor; try assumption; try (split; by vm_compute).
Qed.

(** The decimal text of an integer is made of digits, after a minus sign
    when it is negative. *)
Lemma str_of_int_chars (z : Z) :
  Forall (fun c => c = 45%N \/ (48 <= c <= 57)%N) (str_of_int z).
Proof.
  unfold str_of_int, u, NilEmpty.string_of_int.
  destruct (Z.to_int z) as [d | d].
  - rewrite utf8_decode_ascii.
    + eapply Forall_impl; [apply string_of_uint_bytes | by right].
    + eapply Forall_impl; [apply string_of_uint_bytes |]. simpl. lia.
  - cbn [list_ascii_of_string map]. rewrite utf8_decode_ascii.
    + constructor; [by left |].
      eapply Forall_impl; [apply string_of_uint_bytes | by right].
    + constructor; [by vm_compute |].
      eapply Forall_impl; [apply string_of_uint_bytes |]. simpl. lia.
Qed.

Lemma join_no_lf (sep : str) (parts : list str) :
  ~ In 10%N sep -> Forall (fun p => ~ In 10%N p) parts -> ~ In 10%N (join sep parts).
Proof.
  intros Hsep. induction 1 as [| p parts Hp Hparts IH]; [by intros [] |].
  destruct parts as [| p' parts]; [done |].
  change (join sep (p :: p' :: parts)) with (p ++ sep ++ join sep (p' :: parts)).
  rewrite !in_app_iff. tauto.
Qed.

Lemma escape_char_no_lf (c : N) : ~ In 10%N (escape_char c).
Proof.
  unfold escape_char, hex_digit.
  destruct (N.eqb_spec c 10) as [-> | Hc]; [by vm_compute; intuition |].
  generalize (c / 16)%N, (c mod 16)%N. intros q r.
  repeat match goal with
         | |- context [if ?b then _ else _] => destruct b
         end;
    simpl; intros Hin;
    repeat match goal with
           | Hor : _ \/ _ |- _ => destruct Hor
           end; try done; try lia; congruence.
Qed.

Lemma dumps_str_no_lf (s : str) : ~ In 10%N (dumps_str s).
Proof.
  unfold dumps_str. rewrite !in_app_iff. intros [Hq | [Hin | Hq]].
  - by destruct Hq as [? | []].
  - apply in_concat in Hin as (e & He & Hin).
    apply in_map_iff in He as (c & <- & _). by apply escape_char_no_lf in Hin.
  - by destruct Hq as [? | []].
Qed.

(** [json.dumps] writes every line feed of a string as an escape, so its
    output has none, as long as the text of a float has none. *)
Lemma json_dumps_no_lf :
  (forall f : F, ~ In 10%N (float_repr f)) ->
  forall v : json F, ~ In 10%N (json_dumps v).
Proof.
  intros Hfloat. fix IH 1. intros [| b | z | f | s | l | m]; cbn [json_dumps].
  - by vm_compute; intuition.
  - destruct b; by vm_compute; intuition.
  - intros Hin. pose proof (str_of_int_chars z) as Hz.
    rewrite Forall_forall in Hz. apply list_elem_of_In, Hz in Hin. lia.
  - apply Hfloat.
  - apply dumps_str_no_lf.
  - rewrite !in_app_iff. intros [Hin | [Hin | Hin]];
      [by vm_compute in Hin; intuition | | by vm_compute in Hin; intuition].
    revert Hin. apply join_no_lf; [by vm_compute; intuition |].
    induction l as [| x l IHl]; constructor; [apply IH | apply IHl].
  - rewrite !in_app_iff. intros [Hin | [Hin | Hin]];
      [by vm_compute in Hin; intuition | | by vm_compute in Hin; intuition].
    revert Hin. apply join_no_lf; [by vm_compute; intuition |].
    induction m as [| [k x] m IHm]; constructor; [| apply IHm].
    rewrite !in_app_iff. intros [Hin | [Hin | Hin]].
    + by apply dumps_str_no_lf in Hin.
    + by vm_compute in Hin; intuition.
    + by apply IH in Hin.
Qed.

Lemma cut_no_lf (out : str) (max_len : Z) :
  ~ In 10%N out ->
  ~ In 10%N (if len out <=? max_len then out else slice_to out (max_len - 1) ++ u "…").
Proof.
  intros Hout. destruct (len out <=? max_len); [done |].
  intros [Hin | Hin]%in_app_or.
  - by apply slice_to_sublist in Hin.
  - vm_compute in Hin. by destruct Hin as [Hin | []].
Qed.

(** X3. The compact form is one line: it holds no line feed, whatever
    the argument string, as long as no key of a parsed mapping holds one
    (the keys are the one part that is written out as it is). *)
Theorem compact_args_has_no_line_feed (arg_str : str) (max_len : Z) :
  (forall f : F, ~ In 10%N (float_repr f)) ->
  (forall m, json_loads arg_str = Some (JObj m) -> Forall (fun kv => ~ In 10%N kv.1) m) ->
  ~ In 10%N (_compact_args arg_str max_len).
Proof.
  intros Hfloat Hkeys. unfold _compact_args.
  destruct arg_str as [| c rest]; [by intros [] |].
  destruct (json_loads (c :: rest)) as [args |] eqn:Hload.
  - apply cut_no_lf.
    assert (forall v : json F, ~ In 10%N (trunc v)) as Htrunc.
    { intros v. unfold trunc. apply cut_no_lf. by apply json_dumps_no_lf. }
    destruct args as [| | | | | | m]; try apply Htrunc.
    apply join_no_lf; [by vm_compute; intuition |].
    apply Forall_map. specialize (Hkeys m eq_refl).
    eapply Forall_impl; [exact Hkeys |]. intros [k v] Hk. cbn [fst snd].
    rewrite !in_app_iff. intros [Hin | [Hin | Hin]].
    + done.
    + by vm_compute in Hin; intuition.
    + by apply Htrunc in Hin.
  - apply cut_no_lf, replace_newlines_no_newline.
Qed.


(** ** What [print_conversation] prints first *)

Lemma len_str_repeat_char (c : N) (n : Z) : 0 <= n -> len (str_repeat [c] n) = n.
Proof.
  intros Hn. unfold len, str_repeat.
  assert (forall k, length (concat (replicate k [c])) = k) as Hk.
  { induction k as [| k IH]; [done |]. simpl. by rewrite IH. }
  rewrite Hk. lia.
Qed.

Lemma find_match_is_dict (data : list (json F)) (task_id trial : Z) (e : json F) :
  find_match data task_id trial = Some e ->
  exists m, e = JObj m /\ In e data /\ record_matches task_id trial e = true.
Proof.
  unfold find_match. intros [Hin He]%find_some.
  destruct e as [| | | | | | m]; try done. by exists m.
Qed.

Lemma error_line_shape (a : string) (rest : str) (color : bool) :
  u ("[error] " ++ a)%string = u "[error] " ++ u a ->
  exists msg,
    (([_color (u ("[error] " ++ a)%string ++ rest) sError color], Ok tt) : io unit)
    = ([_color (u "[error] " ++ msg) sError color], Ok tt).
Proof.
  intros Hsplit. exists (u a ++ rest). rewrite Hsplit, <- app_assoc. reflexivity.
Qed.

Lemma print_then {A} (line : str) (k : io A) :
  io_bind (print line) (fun _ => k) = (line :: k.1, k.2).
Proof. unfold io_bind, print. by destruct k. Qed.

(** X4. Whatever the file holds, and whatever target is asked for,
    [print_conversation] does one of two things before anything else: it
    prints exactly one line, starting with [[error] ] and in the error
    colour, and returns normally; or it prints the title and under it a
    rule with as many characters as the title. No exception is raised
    before the title is out. *)
Theorem print_conversation_error_line_or_title
    (fs : str -> load_result) (file_path : str) (task_id trial width : Z) (color : bool) :
  (exists msg,
      print_conversation fs file_path task_id trial width color
      = ([_color (u "[error] " ++ msg) sError color], Ok tt))
  \/ (exists rest r,
        print_conversation fs file_path task_id trial width color
        = (_color (header task_id trial) sBold color
             :: _color (str_repeat (u "─") (len (header task_id trial))) sMeta color
             :: rest, r)
        /\ len (str_repeat (u "─") (len (header task_id trial)))
           = len (header task_id trial)).
Proof.
  unfold print_conversation. destruct (fs file_path) as [| e | data].
  - left. apply (error_line_shape "File not found: " file_path color).
    vm_compute. reflexivity.
  - left. apply (error_line_shape "Failed to parse JSON: " e color).
    vm_compute. reflexivity.
  - assert (exists msg : str,
               (([_color (u "[error] Expected a list at JSON top level.") sError color],
                 Ok tt) : io unit)
               = ([_color (u "[error] " ++ msg) sError color], Ok tt)) as Hshape.
    { rewrite <- (app_nil_r (u "[error] Expected a list at JSON top level.")).
      apply (error_line_shape "Expected a list at JSON top level." [] color).
      vm_compute. reflexivity. }
    destruct data as [| | | | | data |].
    1-5: (left; exact Hshape).
    2: (left; exact Hshape).
    destruct (find_match data task_id trial) as [match_ |] eqn:Hfind.
    + apply find_match_is_dict in Hfind as (m & -> & _ & _).
      unfold render_record, lift. rewrite get_dict. cbn [io_bind app].
      destruct (truthy (default (JArr []) (dict_get m (u "traj")))).
      * right. rewrite !print_then.
        eexists _, _. split; [reflexivity |].
        apply len_str_repeat_char, len_nonneg.
      * left. rewrite <- (app_nil_r (u "[error] No 'traj' found in the selected record.")).
        apply (error_line_shape "No 'traj' found in the selected record." [] color).
        vm_compute. reflexivity.
    + left.
      apply (error_line_shape "No record found for task_id="
               (str_of_int task_id ++ u ", trial=" ++ str_of_int trial ++ u ".") color).
      vm_compute. reflexivity.
Qed.

(** The locator answers with an entry exactly when that entry is the
    first one of the collection that is a mapping with both fields equal
    to the targets, and with nothing exactly when no entry is one. *)
Theorem find_match_is_first_matching_entry
    (data : list (json F)) (task_id trial : Z) :
  (forall e, find_match data task_id trial = Some e <->
             exists pre post,
               data = pre ++ e :: post
               /\ Forall (fun x => record_matches task_id trial x = false) pre
               /\ record_matches task_id trial e = true)
  /\ (find_match data task_id trial = None <->
      Forall (fun x => record_matches task_id trial x = false) data).
Proof.
  unfold find_match. split.
  - intros e. split.
    + induction data as [| x data IH]; [done |]. cbn [find].
      destruct (record_matches task_id trial x) eqn:Hx.
      * intros [= <-]. by exists [], data.
      * intros (pre & post & -> & Hpre & He)%IH.
        exists (x :: pre), post. repeat split; [| done]. by constructor.
    + intros (pre & post & -> & Hpre & He).
      apply find_match_first; [| done].
      intros x Hx. rewrite Forall_forall in Hpre. by apply Hpre, list_elem_of_In.
  - split.
    + intros Hnone. apply Forall_forall. intros x Hx.
      eapply find_none; [exact Hnone | by apply list_elem_of_In].
    + intros Hall. apply find_match_none. intros x Hx.
      rewrite Forall_forall in Hall. by apply Hall, list_elem_of_In.
Qed.

(** ** The instruction block *)

Lemma instruction_truthy (m : list (str * json F)) :
  truthy (instruction (JObj m)) = negb (no_instruction m).
Proof.
  unfold instruction, no_instruction, subscript. cbn [mbind option_bind].
  destruct (dict_get m (u "info")) as [[| | | | | | info] |]; try reflexivity.
  cbn [mbind option_bind].
  destruct (dict_get info (u "task")) as [[| | | | | | task] |]; try reflexivity.
  cbn [mbind option_bind].
  destruct (dict_get task (u "instruction")) as [v |]; [| reflexivity].
  cbn [default]. by rewrite negb_involutive.
Qed.

Lemma io_bind_ok {A B} (a : A) (k : A -> io B) : io_bind (lift (Ok a)) k = k a.
Proof. unfold io_bind, lift. by destruct (k a). Qed.

Lemma render_record_unfold (m : list (str * json F)) (task_id trial width : Z)
    (color : bool) :
  truthy (default (JArr []) (dict_get m (u "traj"))) = true ->
  render_record (JObj m) task_id trial width color
  = io_bind (print (_color (header task_id trial) sBold color))
      (fun _ =>
         io_bind (print (_color (str_repeat (u "─") (len (header task_id trial)))
                           sMeta color))
           (fun _ =>
              io_bind
                (if truthy (instruction (JObj m)) then
                   io_bind (print (_color (u "[instruction]") sBold color))
                     (fun _ =>
                        io_bind (lift (wrap_value (instruction (JObj m)) width))
                          (fun w =>
                             io_bind (lift (as_str w))
                               (fun text =>
                                  io_bind (print (indent text (u "  ")))
                                    (fun _ =>
                                       print (_color (str_repeat (u "─")
                                                        (len (header task_id trial)))
                                                sMeta color)))))
                 else io_ret tt)
                (fun _ =>
                   render_trajectory (default (JArr []) (dict_get m (u "traj")))
                     width color))).
Proof.
  intros Htraj. unfold render_record. rewrite get_dict, io_bind_ok.
  by rewrite Htraj.
Qed.

(** X5. Extraction of the instruction is best effort: when a level of
    [info], [task], [instruction] is missing or is not a mapping, or the
    instruction is empty, the record is rendered as title, rule and
    turns, with no instruction block and no error of its own. *)
Theorem render_record_without_instruction
    (m : list (str * json F)) (task_id trial width : Z) (color : bool) :
  truthy (default (JArr []) (dict_get m (u "traj"))) = true ->
  no_instruction m = true ->
  render_record (JObj m) task_id trial width color
  = (_color (header task_id trial) sBold color
       :: _color (str_repeat (u "─") (len (header task_id trial))) sMeta color
       :: (render_trajectory (default (JArr []) (dict_get m (u "traj"))) width color).1,
     (render_trajectory (default (JArr []) (dict_get m (u "traj"))) width color).2).
Proof.
  intros Htraj Hinstr. rewrite (render_record_unfold _ _ _ _ _ Htraj).
  rewrite instruction_truthy, Hinstr. cbn [negb]. rewrite !print_then.
  unfold io_ret, io_bind at 1. cbn [fst snd app].
  by destruct (render_trajectory _ width color).
Qed.

(** X6. An instruction that is a non-empty string is shown between the
    rule under the title and a second rule: the marker [[instruction]],
    then the text wrapped and indented by two spaces. *)
Theorem render_record_with_instruction
    (m : list (str * json F)) (s : str) (task_id trial width : Z) (color : bool) :
  truthy (default (JArr []) (dict_get m (u "traj"))) = true ->
  instruction (JObj m) = JStr s -> s <> [] ->
  let rule := _color (str_repeat (u "─") (len (header task_id trial))) sMeta color in
  render_record (JObj m) task_id trial width color
  = (_color (header task_id trial) sBold color
       :: rule
       :: _color (u "[instruction]") sBold color
       :: indent (_wrap s width) (u "  ")
       :: rule
       :: (render_trajectory (default (JArr []) (dict_get m (u "traj"))) width color).1,
     (render_trajectory (default (JArr []) (dict_get m (u "traj"))) width color).2).
Proof.
  intros Htraj Hinstr Hs rule. rewrite (render_record_unfold _ _ _ _ _ Htraj).
  rewrite Hinstr. replace (truthy (JStr s : json F)) with true by (by destruct s).
  rewrite wrap_value_str. unfold lift. subst rule.
  generalize (_color (str_repeat (u "─") (len (header task_id trial))) sMeta color).
  generalize (_color (header task_id trial) sBold color).
  generalize (_color (u "[instruction]") sBold color).
  intros a b c. unfold io_bind, print, as_str. cbn [app fst snd].
  by destruct (render_trajectory _ width color).
Qed.

(** X7. An instruction that is neither falsy nor a string (a number,
    [true], a non-empty list or mapping) stops the rendering: the title,
    the rule and the marker [[instruction]] are out, then
    [AttributeError] is raised and no turn is printed. *)
Theorem render_record_instruction_not_text
    (m : list (str * json F)) (task_id trial width : Z) (color : bool) :
  truthy (default (JArr []) (dict_get m (u "traj"))) = true ->
  truthy (instruction (JObj m)) = true ->
  (forall s, instruction (JObj m) <> JStr s) ->
  render_record (JObj m) task_id trial width color
  = ([_color (header task_id trial) sBold color;
      _color (str_repeat (u "─") (len (header task_id trial))) sMeta color;
      _color (u "[instruction]") sBold color],
     Raise AttributeError).
Proof.
  intros Htraj Hinstr Hnot. rewrite (render_record_unfold _ _ _ _ _ Htraj).
  rewrite Hinstr.
  generalize (_color (str_repeat (u "─") (len (header task_id trial))) sMeta color).
  generalize (_color (header task_id trial) sBold color).
  generalize (_color (u "[instruction]") sBold color).
  intros a b c.
  assert (io_bind (lift (wrap_value (instruction (JObj m)) width))
            (fun w => io_bind (lift (as_str w))
               (fun text => io_bind (print (indent text (u "  ")))
                  (fun _ => print c)))
          = ([], Raise AttributeError)) as ->.
  { unfold wrap_value, lift.
    destruct (instruction (JObj m)) as [| | | | s | |];
      try (by destruct (Hnot s)); by destruct (width <=? 0). }
  reflexivity.
Qed.

(** ** The whole transcript *)

Lemma start_idx_lt (traj : list (json F)) :
  traj <> [] -> (start_idx traj < length traj)%nat.
Proof.
  intros Hne. unfold start_idx. destruct (first_user traj) as [i |] eqn:Hi.
  - apply first_user_Some in Hi as [(turn & Hturn & _) _].
    by apply lookup_lt_Some in Hturn.
  - destruct traj; [done |]. simpl. lia.
Qed.

Lemma render_trajectory_blocks (traj : list (json F)) (width : Z) (color : bool) :
  wf_traj traj = true ->
  exists blocks,
    render_trajectory (JArr traj) width color = (concat blocks, Ok tt)
    /\ length blocks = (length traj - start_idx traj)%nat
    /\ Forall (fun block => length block = 2%nat) blocks.
Proof.
  intros Hwf. unfold render_trajectory. cbn [iter]. rewrite io_bind_ok.
  rewrite (build_id2call_wf _ Hwf), io_bind_ok.
  set (id2call := foldl record_entry ∅ (index_entries traj)).
  rewrite <- length_drop.
  assert (Forall (fun turn => wf_turn turn = true) (drop (start_idx traj) traj)) as Hrest.
  { apply Forall_drop, Forall_forall. intros turn Hturn.
    unfold wf_traj in Hwf. rewrite forallb_forall in Hwf.
    apply Hwf. by apply list_elem_of_In. }
  induction Hrest as [| turn rest Hturn _ (blocks & Hout & Hlen & Hall)].
  - by exists [].
  - destruct (render_turn_wf id2call width color turn Hturn) as (label & body & Hrender).
    exists ([label; body] :: blocks). cbn [for_io]. rewrite Hrender.
    unfold io_bind at 1. rewrite Hout. cbn [concat length]. split; [done |].
    split; [by rewrite Hlen |]. by constructor.
Qed.

(** X8. A record whose trajectory is a non-empty sequence of turns of
    the data model, and whose instruction is missing or a string, is
    printed to the end without an exception: two entries for the title
    and its rule, three more when there is an instruction, and two for
    each turn from the starting turn on, of which there is at least one. *)
Theorem render_record_prints_two_entries_per_turn
    (m : list (str * json F)) (turns : list (json F))
    (task_id trial width : Z) (color : bool) :
  dict_get m (u "traj") = Some (JArr turns) -> turns <> [] ->
  wf_traj turns = true ->
  (no_instruction m = true \/ exists s, instruction (JObj m) = JStr s) ->
  exists out,
    render_record (JObj m) task_id trial width color = (out, Ok tt)
    /\ length out
       = (2 + (if no_instruction m then 0 else 3)
          + 2 * (length turns - start_idx turns))%nat
    /\ (start_idx turns < length turns)%nat.
Proof.
  intros Htraj Hne Hwf Hinstr.
  assert (truthy (default (JArr []) (dict_get m (u "traj"))) = true) as Htruthy.
  { rewrite Htraj. by destruct turns. }
  assert (default (JArr []) (dict_get m (u "traj")) = JArr turns) as Hd
    by (by rewrite Htraj).
  destruct (render_trajectory_blocks turns width color Hwf)
    as (blocks & Hout & Hlen & Hall).
  assert (length (concat blocks) = (2 * (length turns - start_idx turns))%nat) as Hcount.
  { rewrite <- Hlen. clear Hout Hlen.
    induction Hall as [| b blocks Hb _ IH]; [done |].
    cbn [concat length]. rewrite length_app, IH, Hb. lia. }
  rewrite (render_record_unfold _ _ _ _ _ Htruthy), Hd, Hout.
  pose proof (instruction_truthy m) as Ht.
  generalize dependent (_color (str_repeat (u "─") (len (header task_id trial))) sMeta color).
  generalize (_color (header task_id trial) sBold color).
  generalize (_color (u "[instruction]") sBold color).
  intros mark title rule.
  destruct (no_instruction m) eqn:Hno.
  - rewrite Ht. cbn [negb]. rewrite !print_then.
    unfold io_ret, io_bind at 1. cbn [fst snd app].
    eexists. split; [reflexivity |]. split; [| by apply start_idx_lt].
    cbn [length]. rewrite Hcount. lia.
  - destruct Hinstr as [Hinstr | [s Hs]]; [done |].
    rewrite Ht, Hs, wrap_value_str. unfold lift, io_bind, print, as_str.
    cbn [negb app fst snd].
    eexists. split; [reflexivity |]. split; [| by apply start_idx_lt].
    cbn [length]. rewrite Hcount. lia.
Qed.

(** ** Colour on the command line *)

(** X9. [main] renders with colour unless [--no-color] is given and the
    output is not a terminal: on a terminal the option changes nothing,
    and the name of the operating system never matters. *)
Theorem main_colour_is_off_only_without_terminal
    (isatty : bool) (os_name : str) (fs : str -> load_result) (args : Namespace) :
  _supports_color isatty os_name (negb (args_no_color args))
  = negb (args_no_color args && negb isatty)
  /\ main isatty os_name fs args
     = print_conversation fs (args_file args) (args_task_id args) (args_trial args)
         (args_width args) (negb (args_no_color args && negb isatty)).
Proof.
  assert (_supports_color isatty os_name (negb (args_no_color args))
          = negb (args_no_color args && negb isatty)) as Hcolor.
  { unfold _supports_color.
    destruct (args_no_color args), isatty, (str_eqb os_name (u "nt")); reflexivity. }
  split; [exact Hcolor |]. unfold main. cbv zeta. by rewrite Hcolor.
Qed.

(** ** Turns that are not mappings *)

Lemma for_res_raises {A S} (body : S -> A -> res S) (xs : list A) (x : A) :
  In x xs -> (forall s, exists e, body s x = Raise e) ->
  forall s, exists e, for_res xs body s = Raise e.
Proof.
  intros Hin Hx. induction xs as [| y xs IH]; [done |]. intros s.
  cbn [for_res]. destruct Hin as [-> | Hin].
  - destruct (Hx s) as [e ->]. by exists e.
  - destruct (body s y) as [s' | e]; [by apply IH | by exists e].
Qed.

(** X10. The table of calls is filled from all turns before any turn is
    printed, so what goes wrong there leaves no turn printed; and a turn
    that is not a mapping, wherever it stands in the sequence, even
    before the first user turn, is enough to go wrong. *)
Theorem render_trajectory_needs_mappings
    (traj : list (json F)) (width : Z) (color : bool) :
  (forall e, build_id2call traj = Raise e ->
             render_trajectory (JArr traj) width color = ([], Raise e))
  /\ ((exists turn, In turn traj /\ is_dict turn = false) ->
      exists e, render_trajectory (JArr traj) width color = ([], Raise e)).
Proof.
  assert (forall e, build_id2call traj = Raise e ->
                    render_trajectory (JArr traj) width color = ([], Raise e)) as Hbuild.
  { intros e He. unfold render_trajectory. cbn [iter]. rewrite io_bind_ok, He. done. }
  split; [exact Hbuild |]. intros (turn & Hin & Hturn).
  destruct (for_res_raises index_turn traj turn Hin) with (s := (∅ : gmap (pykey F) (json F * str)))
    as [e He].
  { intros s. exists AttributeError. by destruct turn. }
  exists e. by apply Hbuild.
Qed.

(** ** Turns by role *)

Lemma _wrap_empty (width : Z) : _wrap [] width = [].
Proof. unfold _wrap. by destruct (width <=? 0). Qed.

(** X11. An assistant turn whose content is a string, the empty string
    included, is printed with that content and nothing else: its tool
    calls are not read by the rendering loop, whatever the field holds,
    and with the empty string the body is the placeholder, not the
    summary of the calls. A turn without a role is the same. *)
Theorem assistant_content_hides_tool_calls
    (id2call : gmap (pykey F) (json F * str)) (m : list (str * json F)) (s : str)
    (width : Z) (color : bool) :
  eq_str (default (JStr (u "assistant")) (dict_get m (u "role"))) (u "assistant") = true ->
  dict_get m (u "content") = Some (JStr s) ->
  render_turn id2call width color (JObj m)
  = ([_color (u "[assistant]") sAssistant color ++ u " ";
      body_line (_wrap s width) color], Ok tt)
  /\ (s = [] ->
      body_line (_wrap s width) color = u "  " ++ _color (u "(no content)") sDim color).
Proof.
  intros Hrole Hcontent. split.
  - apply render_turn_str. unfold role_tag_and_msg. rewrite !get_dict.
    cbn [res_bind]. by rewrite Hrole, Hcontent.
  - intros ->. by rewrite _wrap_empty.
Qed.

(** X12. Every role other than [assistant] and [tool] is labelled by its
    own name in brackets, [user] in the user colour and all others,
    [system] and unknown ones alike, in the meta colour; the body is the
    content, or the placeholder when there is none. No role is an error. *)
Theorem other_roles_are_labelled_by_name
    (id2call : gmap (pykey F) (json F * str)) (m : list (str * json F)) (r : str)
    (width : Z) (color : bool) :
  dict_get m (u "role") = Some (JStr r) ->
  r <> u "assistant" -> r <> u "tool" ->
  opt_str (dict_get m (u "content")) = true ->
  render_turn id2call width color (JObj m)
  = ([_color (u "[" ++ r ++ u "]") (if bool_decide (r = u "user") then sUser else sMeta)
        color ++ u " ";
      body_line (_wrap (text_of (dict_get m (u "content"))) width) color], Ok tt).
Proof.
  intros Hrole Hassistant Htool Hcontent. apply render_turn_str.
  unfold role_tag_and_msg. rewrite !get_dict. cbn [res_bind].
  rewrite Hrole, (py_or_content _ Hcontent). cbn [from_option id eq_str]. unfold str_eqb.
  rewrite (bool_decide_eq_false_2 _ Hassistant), (bool_decide_eq_false_2 _ Htool).
  destruct (decide (r = u "user")) as [-> | Huser].
  { by rewrite bool_decide_eq_true_2. }
  rewrite (bool_decide_eq_false_2 _ Huser).
  destruct (decide (r = u "system")) as [-> | Hsystem].
  { by rewrite bool_decide_eq_true_2. }
  by rewrite (bool_decide_eq_false_2 _ Hsystem).
Qed.

(** X13. A content that is not text (a list of parts, a mapping, a
    number) stops the rendering with [AttributeError], for an assistant
    turn as soon as the content is not [null] and for a user turn as
    soon as it is truthy. With a positive width the exception comes from
    [_wrap], before the label is printed; with a width of zero or less
    [_wrap] hands the value back, the label is printed, and the
    exception comes from the test of the body. *)
Theorem non_text_content_stops_rendering
    (id2call : gmap (pykey F) (json F * str)) (m : list (str * json F)) (c : json F)
    (width : Z) (color : bool) :
  let role := default (JStr (u "assistant")) (dict_get m (u "role")) in
  dict_get m (u "content") = Some c ->
  (forall s, c <> JStr s) ->
  (eq_str role (u "assistant") = true /\ is_none c = false)
  \/ (eq_str role (u "user") = true /\ truthy c = true) ->
  render_turn id2call width color (JObj m)
  = (if width <=? 0 then
       [(if eq_str role (u "assistant") then _color (u "[assistant]") sAssistant color
         else _color (u "[user]") sUser color) ++ u " "]
     else [],
     Raise AttributeError).
Proof.
  intros role Hcontent Hnot Hrole.
  assert (exists tag,
             role_tag_and_msg id2call (JObj m) color = Ok (tag, c)
             /\ tag = if eq_str role (u "assistant")
                      then _color (u "[assistant]") sAssistant color
                      else _color (u "[user]") sUser color) as (tag & Htag & ->).
  { unfold role_tag_and_msg. rewrite !get_dict. cbn [res_bind]. fold role.
    rewrite Hcontent. cbn [from_option id].
    destruct Hrole as [[Hr Hc] | [Hr Hc]].
    - rewrite Hr, Hc. by eexists.
    - destruct (eq_str role (u "assistant")) eqn:Ha.
      + destruct role as [| | | | r | |]; try done.
        apply eq_str_true in Hr. apply eq_str_true in Ha.
        rewrite Hr in Ha. vm_compute in Ha. discriminate.
      + rewrite Hr. unfold py_or. rewrite Hc. by eexists. }
  unfold render_turn. rewrite Htag. unfold lift. cbn [io_bind]. unfold wrap_value.
  destruct (width <=? 0).
  - cbn [io_bind print app].
    destruct c as [| | | | s | |]; [| | | | by destruct (Hnot s) | |]; reflexivity.
  - destruct c as [| | | | s | |]; [| | | | by destruct (Hnot s) | |]; reflexivity.
Qed.

(** ** Lines that [_wrap] keeps *)

Lemma splitlines_from_no_linebreak (l rest cur : str) :
  no_linebreak l = true ->
  splitlines_from false cur (l ++ rest) = splitlines_from false (cur ++ l) rest.
Proof.
  revert cur. induction l as [| c l IH]; intros cur Hl.
  - by rewrite app_nil_r.
  - cbn [no_linebreak forallb] in Hl. apply andb_prop in Hl as [Hc Hl].
    apply negb_true_iff in Hc. cbn [app splitlines_from]. rewrite Hc.
    rewrite (IH _ Hl). by rewrite <- app_assoc.
Qed.

Lemma splitlines_from_line_feed (cur : str) (d : N) (rest : str) :
  splitlines_from false cur (10%N :: d :: rest)
  = (cur ++ []) :: splitlines_from false [] (d :: rest).
Proof. reflexivity. Qed.

Lemma splitlines_join_lines (lines : list str) :
  Forall (fun l => l <> [] /\ no_linebreak l = true) lines ->
  splitlines false (join [10%N] lines) = lines.
Proof.
  unfold splitlines. induction 1 as [| l lines [Hne Hl] Hall IH]; [done |].
  destruct lines as [| l' lines].
  - cbn [join]. rewrite <- (app_nil_r l), (splitlines_from_no_linebreak l [] [] Hl).
    rewrite app_nil_r. cbn [app splitlines_from]. by destruct l.
  - change (join [10%N] (l :: l' :: lines))
      with (l ++ 10%N :: join [10%N] (l' :: lines)).
    rewrite (splitlines_from_no_linebreak l _ [] Hl). cbn [app].
    apply Forall_cons in Hall as [[Hne' _] _].
    destruct (join [10%N] (l' :: lines)) as [| d rest] eqn:Hjoin.
    { destruct lines; simpl in Hjoin; by destruct l'. }
    rewrite splitlines_from_line_feed, !app_nil_r. by rewrite IH.
Qed.

Lemma keeps_line_not_empty (l : str) : keeps_line l = true -> l <> [].
Proof. by intros Hl ->. Qed.

(** X14. A text made of code-fence, quote and bullet lines, separated by
    line feeds, comes back from [_wrap] as it went in, at every width:
    such lines are never filled, and wrapping the result again changes
    nothing. *)
Theorem wrap_keeps_marked_lines (lines : list str) (width : Z) :
  Forall (fun l => keeps_line l = true /\ no_linebreak l = true) lines ->
  _wrap (join [10%N] lines) width = join [10%N] lines
  /\ _wrap (_wrap (join [10%N] lines) width) width = _wrap (join [10%N] lines) width.
Proof.
  intros Hlines.
  assert (_wrap (join [10%N] lines) width = join [10%N] lines) as Hwrap.
  { unfold _wrap. destruct (width <=? 0); [done |].
    rewrite splitlines_join_lines.
    - f_equal. rewrite <- (map_id lines) at 2. apply map_ext_Forall.
      eapply Forall_impl; [exact Hlines |].
      intros l [Hl _]. unfold keeps_line in Hl. cbv zeta in Hl. by rewrite Hl.
    - eapply Forall_impl; [exact Hlines |]. intros l [Hl Hnl].
      split; [by apply keeps_line_not_empty | done]. }
  split; [exact Hwrap |]. by rewrite !Hwrap.
Qed.

(** ** Calls in the table and in the transcript *)

Lemma index_turn_not_assistant (id2call : gmap (pykey F) (json F * str)) (turn : json F) :
  is_dict turn = true -> is_assistant_turn turn = false ->
  index_turn id2call turn = Ok id2call.
Proof.
  destruct turn as [| | | | | | m]; try done. intros _. unfold is_assistant_turn, index_turn.
  rewrite get_dict. cbn [res_bind]. by intros ->.
Qed.

(** X15. Only the turns whose role is [assistant] feed the table of
    calls: on a sequence of mappings, leaving all other turns out, with
    whatever [tool_calls] they carry, gives the same table or the same
    exception. *)
Theorem build_id2call_reads_assistant_turns_only (traj : list (json F)) :
  Forall (fun turn => is_dict turn = true) traj ->
  build_id2call traj = build_id2call (List.filter is_assistant_turn traj).
Proof.
  intros Hall. unfold build_id2call. generalize (∅ : gmap (pykey F) (json F * str)).
  induction Hall as [| turn traj Hturn _ IH]; intros id2call; [done |].
  cbn [for_res List.filter]. destruct (is_assistant_turn turn) eqn:Hrole.
  - cbn [for_res]. destruct (index_turn id2call turn); [apply IH | done].
  - rewrite (index_turn_not_assistant _ _ Hturn Hrole). apply IH.
Qed.

(** X16. The summary of a tool call in the body of an assistant turn is
    [NAME(ARGS)], where [ARGS] is the very text the table of calls keeps
    for that call (empty for missing or empty arguments, so that the
    summary ends in [()]) and [NAME] is [<?>] when the function has no
    name. *)
Theorem call_summary_is_name_and_indexed_args (tc : json F) :
  wf_call tc = true ->
  call_summary tc
  = Ok (fmt (default (JStr (u "<?>")) (dict_get (call_fields tc) (u "name")))
          ++ u "(" ++ (call_info tc).2 ++ u ")").
Proof.
  intros Hwf. unfold call_summary.
  rewrite (call_function_wf _ Hwf). cbn [res_bind]. rewrite !get_dict. cbn [res_bind].
  rewrite (call_compact_args_field _ (wf_call_arguments _ Hwf)). cbn [res_bind].
  unfold call_info. cbn [snd].
  by destruct (_compact_args (text_of (dict_get (call_fields tc) (u "arguments"))) 200).
Qed.

(** X17. A tool turn without a name of its own that answers a call with
    a function name and arguments carries in its label the summary of
    that call as the assistant turn shows it: [[tool:NAME(ARGS)]]. The
    call that counts is the last one of the sequence with the
    identifier, and its place relative to the tool turn does not matter. *)
Theorem tool_label_repeats_call_summary
    (traj : list (json F)) (tc : json F) (i n : str)
    (m : list (str * json F)) (color : bool) :
  wf_traj traj = true -> wf_call tc = true ->
  last_entry (KStr i) (index_entries traj) = Some (call_info tc) ->
  dict_get (call_fields tc) (u "name") = Some (JStr n) -> n <> [] ->
  (call_info tc).2 <> [] -> i <> [] ->
  eq_str (default JNull (dict_get m (u "role"))) (u "tool") = true ->
  opt_str (dict_get m (u "name")) = true ->
  text_of (dict_get m (u "name")) = [] ->
  dict_get m (u "tool_call_id") = Some (JStr i) ->
  exists id2call summary msg,
    build_id2call traj = Ok id2call
    /\ call_summary tc = Ok summary
    /\ role_tag_and_msg id2call (JObj m) color
       = Ok (_color (u "[tool:" ++ summary ++ u "]") sTool color, msg).
Proof.
  intros Hwf Htc Hlast Hname Hn Hargs Hi Hrole Hown_ok Hown Hid.
  exists (foldl record_entry ∅ (index_entries traj)). eexists _, _.
  split; [by apply build_id2call_wf |].
  split.
  { unfold call_summary.
    rewrite (call_function_wf _ Htc). cbn [res_bind]. rewrite !get_dict. cbn [res_bind].
    rewrite (call_compact_args_field _ (wf_call_arguments _ Htc)). cbn [res_bind].
    reflexivity. }
  assert (foldl record_entry ∅ (index_entries traj) !! KStr i = Some (call_info tc))
    as Hlookup.
  { by rewrite lookup_foldl_record_entry, Hlast. }
  unfold role_tag_and_msg. rewrite !get_dict. cbn [res_bind].
  destruct (dict_get m (u "role")) as [role |] eqn:Hr; [| done].
  cbn [from_option id] in Hrole |- *. apply eq_str_true in Hrole as ->.
  change (eq_str (JStr (u "tool")) (u "assistant")) with false.
  change (eq_str (JStr (u "tool")) (u "user")) with false.
  change (eq_str (JStr (u "tool")) (u "tool")) with true. cbv iota.
  destruct i as [| c i]; [done |].
  pose proof (tool_role_tag_label (foldl record_entry ∅ (index_entries traj))
                (dict_get m (u "name")) (dict_get m (u "tool_call_id")) color Hown_ok)
    as Hlabel.
  rewrite Hid in Hlabel. cbn [text_of] in Hlabel. cbv zeta iota in Hlabel.
  unfold str in Hlookup, Hlabel. rewrite Hlookup, Hown in Hlabel.
  rewrite Hid. unfold str. rewrite Hlabel; [| done |].
  - cbn [res_bind]. unfold call_info in Hargs |- *.
    cbn [fmap option_fmap option_map fst snd text_of from_option id] in Hargs |- *.
    rewrite Hname. cbn [from_option id text_of fmt].
    destruct n as [| c' n]; [done |].
    destruct (_compact_args _ 200) as [| c'' comp]; [done |].
    unfold tool_label. cbv iota zeta.
    do 3 f_equal. by rewrite <- !app_assoc.
  - intros v [= <-]. unfold call_info. cbn [fst]. by rewrite Hname.
Qed.

End More.

(** ** The further properties at work *)

Import MoreSamples.

(** Four values of 80 characters against the default maximum. *)
Lemma compact_args_within_max_len_witness :
  1 <= 200 /\ len (_compact_args four_long_values 200) <= 200.
Proof.
  split; [lia |]. apply (compact_args_within_max_len (H0 := Ref.lib)). lia.
Defined.

(** A list of two numbers. *)
Lemma compact_args_of_non_mapping_witness :
  json_loads (u "[1, 2]") = Some (JArr [JInt 1; JInt 2] : val)
  /\ _compact_args (u "[1, 2]") 200 = u "[1, 2]".
Proof.
  split; [by vm_compute |].
  destruct (compact_args_of_non_mapping (u "[1, 2]") 200 (JArr [JInt 1; JInt 2] : val))
    as (_ & _ & Hfit); [by vm_compute | by vm_compute | by vm_compute | lia |].
  rewrite Hfit by (by vm_compute). by vm_compute.
Defined.

(** A value with a line feed in it: the compact form shows the escape. *)
Lemma compact_args_has_no_line_feed_witness :
  json_loads (jq "{'note': 'a\nb'}") = Some (JObj [(u "note", JStr [97; 10; 98]%N)] : val)
  /\ ~ In 10%N (_compact_args (jq "{'note': 'a\nb'}") 200)
  /\ _compact_args (jq "{'note': 'a\nb'}") 200 = jq "note='a\nb'".
Proof.
  split; [by vm_compute |]. split; [| by vm_compute].
  apply (compact_args_has_no_line_feed (H0 := Ref.lib)).
  - intros [].
  - intros m Hm. vm_compute in Hm. injection Hm as <-.
    repeat constructor. intros Hin. vm_compute in Hin. intuition discriminate.
Defined.

Lemma render_record_without_instruction_witness :
  no_instruction plain_record = true
  /\ render_record (JObj plain_record) 1 0 100 false
     = ([u "Conversation — task_id=1, trial=0"; str_repeat (u "─") 33;
         u "[user] "; u "  hi";
         u "[assistant] "; u "  → tool call(s): lookup(x=1)";
         u "[tool:lookup(x=1)] "; u "  result"], Ok tt).
Proof.
  split; [by vm_compute |].
  rewrite (render_record_without_instruction plain_record 1 0 100 false);
    by vm_compute.
Defined.

Lemma render_record_with_instruction_witness :
  instruction (JObj (record_with_instruction (txt "Find x."))) = txt "Find x."
  /\ render_record (JObj (record_with_instruction (txt "Find x."))) 1 0 100 false
     = ([u "Conversation — task_id=1, trial=0"; str_repeat (u "─") 33;
         u "[instruction]"; u "  Find x."; str_repeat (u "─") 33;
         u "[user] "; u "  hi";
         u "[assistant] "; u "  → tool call(s): lookup(x=1)";
         u "[tool:lookup(x=1)] "; u "  result"], Ok tt).
Proof.
  split; [by vm_compute |].
  rewrite (render_record_with_instruction (record_with_instruction (txt "Find x."))
             (u "Find x.") 1 0 100 false); by vm_compute.
Defined.

(** An instruction that is the number 5. *)
Lemma render_record_instruction_not_text_witness :
  truthy (instruction (JObj (record_with_instruction (JInt 5)))) = true
  /\ render_record (JObj (record_with_instruction (JInt 5))) 1 0 100 false
     = ([u "Conversation — task_id=1, trial=0"; str_repeat (u "─") 33;
         u "[instruction]"], Raise AttributeError).
Proof.
  split; [by vm_compute |].
  rewrite (render_record_instruction_not_text (record_with_instruction (JInt 5))
             1 0 100 false); by vm_compute.
Defined.

(** The scenario: eight entries, and the start at the first turn. *)
Lemma render_record_prints_two_entries_per_turn_witness :
  wf_traj traj = true
  /\ exists out,
      render_record (JObj plain_record) 1 0 100 false = (out, Ok tt)
      /\ length out = 8%nat.
Proof.
  split; [by vm_compute |].
  destruct (render_record_prints_two_entries_per_turn plain_record traj 1 0 100 false)
    as (out & Hout & Hlen & _);
    [by vm_compute | by vm_compute | by vm_compute | left; by vm_compute |].
  exists out. split; [exact Hout |]. rewrite Hlen. by vm_compute.
Defined.

(** A [null] after the first user turn: not even the user turn is
    printed. *)
Lemma render_trajectory_needs_mappings_witness :
  (exists turn, In turn traj_with_null /\ is_dict turn = false)
  /\ render_trajectory (JArr traj_with_null) 100 false = ([], Raise AttributeError).
Proof.
  assert (exists turn, In turn traj_with_null /\ is_dict turn = false) as Hnull.
  { exists JNull. split; [right; by left | done]. }
  split; [exact Hnull |].
  destruct (render_trajectory_needs_mappings traj_with_null 100 false) as [_ Hraise].
  destruct (Hraise Hnull) as [e He]. rewrite He. f_equal.
  assert (render_trajectory (JArr traj_with_null) 100 false = ([], Raise AttributeError))
    as Hrun by (by vm_compute).
  rewrite Hrun in He. by injection He as <-.
Defined.

Lemma assistant_content_hides_tool_calls_witness :
  dict_get assistant_empty_content (u "content") = Some (JStr [] : val)
  /\ render_turn (∅ : gmap (pykey Empty_set) (val * str)) 100 false
       (JObj assistant_empty_content)
     = ([u "[assistant] "; u "  (no content)"], Ok tt).
Proof.
  split; [by vm_compute |].
  destruct (assistant_content_hides_tool_calls
              (∅ : gmap (pykey Empty_set) (val * str)) assistant_empty_content [] 100 false)
    as [Hrender _]; [by vm_compute | by vm_compute |].
  rewrite Hrender. by vm_compute.
Defined.

Lemma other_roles_are_labelled_by_name_witness :
  dict_get developer_note (u "role") = Some (txt "developer")
  /\ render_turn (∅ : gmap (pykey Empty_set) (val * str)) 100 false (JObj developer_note)
     = ([u "[developer] "; u "  note"], Ok tt).
Proof.
  split; [by vm_compute |].
  rewrite (other_roles_are_labelled_by_name
             (∅ : gmap (pykey Empty_set) (val * str)) developer_note (u "developer")
             100 false); by vm_compute.
Defined.

(** A content in parts, at a positive width and at width 0. *)
Lemma non_text_content_stops_rendering_witness :
  render_turn (∅ : gmap (pykey Empty_set) (val * str)) 100 false (JObj content_in_parts)
  = ([], Raise AttributeError)
  /\ render_turn (∅ : gmap (pykey Empty_set) (val * str)) 0 false (JObj content_in_parts)
     = ([u "[user] "], Raise AttributeError).
Proof.
  split.
  - rewrite (non_text_content_stops_rendering
               (∅ : gmap (pykey Empty_set) (val * str)) content_in_parts
               (JArr [JObj [(u "type", txt "text"); (u "text", txt "hi")]]) 100 false);
      [by vm_compute | by vm_compute | done | right; by vm_compute].
  - rewrite (non_text_content_stops_rendering
               (∅ : gmap (pykey Empty_set) (val * str)) content_in_parts
               (JArr [JObj [(u "type", txt "text"); (u "text", txt "hi")]]) 0 false);
      [by vm_compute | by vm_compute | done | right; by vm_compute].
Defined.

Lemma wrap_keeps_marked_lines_witness :
  Forall (fun l => keeps_line l = true /\ no_linebreak l = true) marked_lines
  /\ _wrap (H0 := Ref.lib) (join [10%N] marked_lines) 5 = join [10%N] marked_lines.
Proof.
  assert (Forall (fun l => keeps_line l = true /\ no_linebreak l = true) marked_lines)
    as Hlines by (repeat constructor; by vm_compute).
  split; [exact Hlines |].
  by destruct (wrap_keeps_marked_lines (H0 := Ref.lib) marked_lines 5 Hlines).
Defined.

Lemma build_id2call_reads_assistant_turns_only_witness :
  Forall (fun turn => is_dict turn = true) traj
  /\ build_id2call traj = build_id2call [assistant_calls [lookup_call]].
Proof.
  assert (Forall (fun turn : val => is_dict turn = true) traj) as Hdicts
    by (by repeat constructor).
  split; [exact Hdicts |].
  by rewrite (build_id2call_reads_assistant_turns_only traj Hdicts).
Defined.

Lemma call_summary_is_name_and_indexed_args_witness :
  wf_call lookup_call = true
  /\ call_summary lookup_call = Ok (u "lookup(x=1)")
  /\ (call_info lookup_call).2 = u "x=1".
Proof.
  split; [by vm_compute |]. split; [| by vm_compute].
  rewrite (call_summary_is_name_and_indexed_args lookup_call); by vm_compute.
Defined.

Lemma tool_label_repeats_call_summary_witness :
  wf_traj traj = true
  /\ exists id2call msg,
      build_id2call traj = Ok id2call
      /\ call_summary lookup_call = Ok (u "lookup(x=1)")
      /\ role_tag_and_msg id2call tool_result false = Ok (u "[tool:lookup(x=1)]", msg).
Proof.
  split; [by vm_compute |].
  destruct (tool_label_repeats_call_summary traj lookup_call (u "c1") (u "lookup")
              [(u "role", txt "tool"); (u "tool_call_id", txt "c1");
               (u "content", txt "result")] false)
    as (id2call & summary & msg & Hbuild & Hsummary & Htag); try (by vm_compute).
  exists id2call, msg. split; [exact Hbuild |].
  assert (call_summary lookup_call = Ok (u "lookup(x=1)")) as Hrun by (by vm_compute).
  split; [exact Hrun |].
  rewrite Hrun in Hsummary. injection Hsummary as <-. exact Htag.
Defined.
